(** * Order-metrics publisher (index.js): a shallow embedding and its properties

    The program is a scheduled job: every minute [main] queries the orders
    table once ([getOrderCounts]), then publishes the two counts as gauge
    points to the monitoring backend ([publishMetric], twice, under
    [Promise.all]).

    Layout of the development:
    - [JS]       the JavaScript values and built-ins the program relies on
                 (numbers, [parseInt(_, 10)], [||], string conversion);
    - [Model]    the data the program builds (configuration, requests);
    - [Async]    async functions as resumptions, and a small event loop
                 that runs them against the outside world;
    - [Program]  [getOrderCounts], [publishMetric], [main], line by line;
    - [Run]      one call of each function and one cycle of [main] against
                 given answers of the database, the backend and the clock;
    - [Sample]   concrete worlds on which the properties are exercised;
    - [Database] the orders table (dbschema.sql) and what the query of
                 [getOrderCounts] answers on it;
    - [Conduct]  what every run of the event loop keeps to;
    - [Scenario] sample tables and runs;
    - then the properties.

    Numbers.  A JavaScript number is a double.  The numbers the program
    computes with are [NaN], the infinities and integer-valued doubles;
    [Int z] stands for the double nearest to [z], which is [z] itself up
    to 2^53, and [parseInt] rounds to it.  [Date.now() / 1000] is modelled
    as the exact rational [now / 1000].

    The client library.  [metricServiceClient.projectPath] belongs to the
    client library; it is a parameter of the development, and it may
    throw. *)

From Stdlib Require Import ZArith QArith String Ascii List Lia.
From Stdlib Require Import DecimalString.
From Stdlib Require DecimalPos.
From stdpp Require Import gmap strings.
Import ListNotations.

Open Scope string_scope.
Open Scope list_scope.
Open Scope Z_scope.

(* ===================================================================== *)
(** ** JavaScript values and built-ins *)
(* ===================================================================== *)

Module JS.

(** A value found in [process.env] or in a column of a result row;
    [Number z] is the number nearest to the integer [z]. *)
Inductive val : Type :=
| Undefined
| Null
| Bool (b : bool)
| Number (z : Z)
| Str (s : string).

(** A number as the program meets one: what [parseInt] returns, and a
    count.  [Int z] is the number nearest to the integer [z]; that is [z]
    itself when [z] is a number, as every integer up to 2^53 in magnitude
    is. *)
Inductive number : Type :=
| NaN
| Int (z : Z)
| Infinity (negative : bool).

(** The decimal digits of an integer, after a minus sign when it is
    negative. *)
Definition decimal (z : Z) : string := NilZero.string_of_int (Z.to_int z).

(** The number nearest to the integer [a >= 0], ties going to the even
    significand of 53 bits; none when that overflows. *)
Definition nearest_double (a : Z) : option Z :=
  if a <? 2 ^ 53 then Some a
  else
    let e := Z.log2 a - 52 in
    let q := Z.shiftr a e in
    let r := a - Z.shiftl q e in
    let half := Z.shiftl 1 (e - 1) in
    let m := if r <? half then q
             else if half <? r then q + 1
             else if Z.even q then q else q + 1 in
    let d := Z.shiftl m e in
    if d <? 2 ^ 1024 then Some d else None.

(** The number for a mathematical integer. *)
Definition of_integer (z : Z) : number :=
  match nearest_double (Z.abs z) with
  | Some d => Int (Z.sgn z * d)
  | None => Infinity (z <? 0)
  end.

(** The integer [y] is rounded to the number [a], where [a > 2^53]: [y]
    lies between the midpoints to the neighbours of [a], the midpoints
    included when the significand of [a] is even. *)
Definition rounds_to (a y : Z) : bool :=
  let e := Z.log2 a - 52 in
  let m := Z.shiftr a e in
  let up := Z.shiftl 1 (e - 1) in
  let down := if m =? 2 ^ 52 then Z.shiftl 1 (e - 2) else up in
  if Z.even m then (a - down <=? y) && (y <=? a + up)
  else (a - down <? y) && (y <? a + up).

(** The multiples of [10^t] next to [a], below and above. *)
Definition candidates (a : Z) (t : nat) : Z * Z :=
  let p := 10 ^ Z.of_nat t in
  let below := a / p * p in
  (below, if below =? a then a else below + p).

Definition reachable (a : Z) (t : nat) : bool :=
  let '(below, above) := candidates a t in
  rounds_to a below || rounds_to a above.

(** The most zeros a decimal that is rounded to [a] can end in. *)
Fixpoint trailing_zeros (fuel : nat) (a : Z) (t : nat) : nat :=
  match fuel with
  | O => t
  | S fuel' =>
      if reachable a (S t) then trailing_zeros fuel' a (S t) else t
  end.

(** The shortest decimal that is rounded to [a]: its digits [s] and the
    number [t] of zeros after them; of several, the one nearest to [a],
    and of two equally near, the even one. *)
Definition shortest (a : Z) : Z * nat :=
  let t := trailing_zeros 400 a 0 in
  let p := 10 ^ Z.of_nat t in
  let '(below, above) := candidates a t in
  let y :=
    if negb (rounds_to a above) then below
    else if negb (rounds_to a below) then above
    else if a - below <? above - a then below
    else if above - a <? a - below then above
    else if Z.even (below / p) then below else above in
  (y / p, t).

Definition zeros (t : nat) : string :=
  string_of_list_ascii (repeat "0"%char t).

(** [Number::toString] on an integer-valued number [a >= 0]: the digits
    of [a] up to 2^53; beyond, the shortest decimal that is rounded to
    [a], written out when it has at most 21 digits and with an exponent
    otherwise. *)
Definition show_double (a : Z) : string :=
  if a <=? 2 ^ 53 then decimal a
  else
    let '(s, t) := shortest a in
    let digits := decimal s in
    let n := (String.length digits + t)%nat in
    if (n <=? 21)%nat then digits +:+ zeros t
    else
      match digits with
      | String d EmptyString =>
          String d ("e+" +:+ decimal (Z.of_nat n - 1))
      | String d rest =>
          String d ("." +:+ rest +:+ "e+" +:+ decimal (Z.of_nat n - 1))
      | EmptyString => EmptyString
      end.

(** A number in a template literal ([ToString]). *)
Definition show (n : number) : string :=
  match n with
  | NaN => "NaN"
  | Infinity false => "Infinity"
  | Infinity true => "-Infinity"
  | Int z =>
      match of_integer z with
      | Int d => if d <? 0 then "-" +:+ show_double (- d) else show_double d
      | Infinity false => "Infinity"
      | Infinity true => "-Infinity"
      | NaN => "NaN"
      end
  end.
#[global] Arguments nearest_double : simpl never.
#[global] Arguments of_integer : simpl never.
#[global] Arguments show_double : simpl never.
#[global] Arguments show : simpl never.

(** [ToString] on the values above; [Number z] is the number nearest to
    [z]. *)
Definition to_string (v : val) : string :=
  match v with
  | Undefined => "undefined"
  | Null => "null"
  | Bool true => "true"
  | Bool false => "false"
  | Number z => show (Int z)
  | Str s => s
  end.

(** White space skipped by [parseInt]: TAB, LF, VT, FF, CR, SP and NBSP
    (the code units below 256 of StrWhiteSpaceChar). *)
Definition is_white (c : ascii) : bool :=
  let n := nat_of_ascii c in
  ((9 <=? n) && (n <=? 13))%nat || (n =? 32)%nat || (n =? 160)%nat.

Fixpoint trim_start (s : string) : string :=
  match s with
  | String c s' => if is_white c then trim_start s' else s
  | EmptyString => EmptyString
  end.

(** The value of a decimal digit, if [c] is one. *)
Definition digit (c : ascii) : option Z :=
  let n := Z.of_nat (nat_of_ascii c) in
  if (48 <=? n) && (n <=? 57) then Some (n - 48) else None.

(** The longest prefix of decimal digits of [s], read in base ten on top
    of [acc]; [seen] records whether a digit was read at all. *)
Fixpoint digits (s : string) (seen : bool) (acc : Z) : option Z :=
  match s with
  | String c s' =>
      match digit c with
      | Some d => digits s' true (10 * acc + d)
      | None => if seen then Some acc else None
      end
  | EmptyString => if seen then Some acc else None
  end.

(** An optional leading sign: its value and the rest of the string. *)
Definition strip_sign (s : string) : Z * string :=
  match s with
  | String c r =>
      if Ascii.eqb c "-" then (-1, r)
      else if Ascii.eqb c "+" then (1, r)
      else (1, s)
  | EmptyString => (1, s)
  end.

(** [parseInt(string, 10)] on a string: skip white space, read an optional
    sign, then the longest run of decimal digits; [NaN] when that run is
    empty, and otherwise the number nearest to the integer read.  What
    follows the digits is ignored.  (ECMAScript lets an engine replace the
    digits after the twentieth by zeros; here all of them are read.  Up
    to 2^53 the two agree.) *)
Definition parseInt_string (s : string) : number :=
  let '(sign, s') := strip_sign (trim_start s) in
  match digits s' false 0 with
  | Some n => of_integer (sign * n)
  | None => NaN
  end.

(** [parseInt(v, 10)]: the argument is first converted to a string. *)
Definition parseInt (v : val) : number := parseInt_string (to_string v).

(** [n || 0] on a number: [NaN], [0] and [-0] are falsy. *)
Definition or_zero (n : number) : number :=
  match n with
  | NaN => Int 0
  | Int z => if z =? 0 then Int 0 else Int z
  | Infinity negative => Infinity negative
  end.

(** The integers that are numbers beyond doubt: up to 2^53 in
    magnitude. *)
Definition exact (z : Z) : bool := Z.abs z <=? 2 ^ 53.

(** [s || d] where [s] is a string or [undefined]: [undefined] and the
    empty string are falsy. *)
Definition or_else (s : option string) (d : string) : string :=
  match s with
  | None => d
  | Some EmptyString => d
  | Some s' => s'
  end.

(** A thrown JavaScript value. *)
Inductive error : Type :=
| TypeError (msg : string)
| External (msg : string).

(** How a promise settles. *)
Inductive outcome (A : Type) : Type :=
| Resolved (a : A)
| Rejected (e : error).
#[global] Arguments Resolved {A} a.
#[global] Arguments Rejected {A} e.

End JS.

(* ===================================================================== *)
(** ** Data model *)
(* ===================================================================== *)

Module Model.
Import JS.

(** [process.env]. *)
Abbreviation environment := (gmap string string).

(** A result row: an object from column name to value. *)
Abbreviation row := (gmap string val).

(** The object [pool.query] resolves with; only [rows] is read. *)
Record query_result : Type := { rows : list row }.

(** [dbConfig] (index.js, lines 14-20). *)
Record db_config : Type := {
  user : option string;
  password : option string;
  host : string;
  database : option string;
  port : number
}.

Definition dbConfig (env : environment) : db_config :=
  {| user := env !! "DB_USER";
     password := env !! "DB_PASS";
     host := or_else (env !! "DB_HOST") "127.0.0.1";
     database := env !! "DB_NAME";
     port := parseInt (Str (or_else (env !! "DB_PORT") "5432")) |}.

(** [projectId] (line 10). *)
Definition projectId (env : environment) : option string :=
  env !! "GOOGLE_CLOUD_PROJECT".

Definition customMetricType : string :=
  "custom.googleapis.com/orders/backlog_count".
Definition processedMetricType : string :=
  "custom.googleapis.com/orders/processed_count".

(** The request built by [publishMetric] (lines 66-98).  Objects with a
    fixed set of keys are records; [interval] is kept as an object (a map
    from field name to timestamp) because the program sets only some of
    the fields a time interval can have. *)
Record timestamp : Type := { seconds : Q }.
Record typed_value : Type := { int64Value : number }.
Record point : Type := {
  interval : gmap string timestamp;
  value : typed_value
}.
Record metric_descriptor : Type := { metric_type : string }.
Record resource_labels : Type := { project_id : option string }.
Record monitored_resource : Type := {
  resource_type : string;
  labels : resource_labels
}.
Record time_series : Type := {
  metric : metric_descriptor;
  resource : monitored_resource;
  points : list point;
  metricKind : string;
  valueType : string
}.
Record create_request : Type := {
  name : string;
  timeSeries : list time_series
}.

(** The value returned by [getOrderCounts]. *)
Record order_counts : Type := {
  backlogCount : number;
  processedCount : number
}.

End Model.

(* ===================================================================== *)
(** ** Async functions and the event loop *)
(* ===================================================================== *)

Module Async.
Import JS Model.

(** The body of an async function, as a resumption.  Synchronous effects
    ([console.log], [console.error], [Date.now()]) carry the rest of the
    body; an [await] carries the continuation that receives how the
    awaited promise settled.  [AwaitAll l r k] is
    [await Promise.all([l, r])], where [l] and [r] are calls of async
    functions whose results are discarded. *)
Inductive task (A : Type) : Type :=
| Return (a : A)
| Throw (e : error)
| ConsoleLog (msg : string) (k : task A)
| ConsoleError (msg : string) (e : error) (k : task A)
| DateNow (k : Z -> task A)
| AwaitQuery (sql : string) (k : outcome query_result -> task A)
| AwaitCreateTimeSeries (req : create_request) (k : outcome unit -> task A)
| AwaitAll (l r : task unit) (k : outcome unit -> task A).
#[global] Arguments Return {A} a.
#[global] Arguments Throw {A} e.
#[global] Arguments ConsoleLog {A} msg k.
#[global] Arguments ConsoleError {A} msg e k.
#[global] Arguments DateNow {A} k.
#[global] Arguments AwaitQuery {A} sql k.
#[global] Arguments AwaitCreateTimeSeries {A} req k.
#[global] Arguments AwaitAll {A} l r k.

(** Sequencing: [t] then [f] on its value; a throw skips [f]. *)
Fixpoint bind {A B : Type} (t : task A) (f : A -> task B) : task B :=
  match t with
  | Return a => f a
  | Throw e => Throw e
  | ConsoleLog m k => ConsoleLog m (bind k f)
  | ConsoleError m e k => ConsoleError m e (bind k f)
  | DateNow k => DateNow (fun now => bind (k now) f)
  | AwaitQuery sql k => AwaitQuery sql (fun o => bind (k o) f)
  | AwaitCreateTimeSeries req k =>
      AwaitCreateTimeSeries req (fun o => bind (k o) f)
  | AwaitAll l r k => AwaitAll l r (fun o => bind (k o) f)
  end.

(** [try { t } catch (err) { h err }]. *)
Fixpoint try_catch {A : Type} (t : task A) (h : error -> task A) : task A :=
  match t with
  | Return a => Return a
  | Throw e => h e
  | ConsoleLog m k => ConsoleLog m (try_catch k h)
  | ConsoleError m e k => ConsoleError m e (try_catch k h)
  | DateNow k => DateNow (fun now => try_catch (k now) h)
  | AwaitQuery sql k => AwaitQuery sql (fun o => try_catch (k o) h)
  | AwaitCreateTimeSeries req k =>
      AwaitCreateTimeSeries req (fun o => try_catch (k o) h)
  | AwaitAll l r k => AwaitAll l r (fun o => try_catch (k o) h)
  end.

#[global] Instance task_ret : MRet task := @Return.
#[global] Instance task_bind : MBind task := fun A B f t => bind t f.

(** An [await]ed promise that rejects throws at the [await]. *)
Definition settle {A : Type} (o : outcome A) : task A :=
  match o with
  | Resolved a => Return a
  | Rejected e => Throw e
  end.

(** A call of a function that returns or throws. *)
Definition call {A : Type} (o : outcome A) : task A :=
  match o with
  | Resolved a => Return a
  | Rejected e => Throw e
  end.

Definition console_log (msg : string) : task unit :=
  ConsoleLog msg (Return tt).
Definition console_error (msg : string) (e : error) : task unit :=
  ConsoleError msg e (Return tt).
Definition date_now : task Z := DateNow Return.
Definition await_query (sql : string) : task query_result :=
  AwaitQuery sql settle.
Definition await_createTimeSeries (req : create_request) : task unit :=
  AwaitCreateTimeSeries req settle.
Definition await_all (l r : task unit) : task unit := AwaitAll l r settle.

(** *** What the outside world observes *)

Inductive event : Type :=
| Log (msg : string)
| LogError (msg : string) (e : error)
| Query (id : nat) (sql : string)
| CreateTimeSeries (id : nat) (req : create_request).

(** An async function in flight: settled, suspended at an [await] on the
    call numbered [id], or suspended at a [Promise.all] over two functions
    in flight. *)
Inductive thread (A : Type) : Type :=
| Settled (o : outcome A)
| OnQuery (id : nat) (k : outcome query_result -> task A)
| OnCreateTimeSeries (id : nat) (k : outcome unit -> task A)
| OnAll (l r : thread unit) (k : outcome unit -> task A).
#[global] Arguments Settled {A} o.
#[global] Arguments OnQuery {A} id k.
#[global] Arguments OnCreateTimeSeries {A} id k.
#[global] Arguments OnAll {A} l r k.

(** The process: everything observed so far, the number of the next call
    to the outside, how often the clock was read, and the functions left
    running by a [Promise.all] that rejected early. *)
Record process : Type := {
  trace : list event;
  next_call : nat;
  clock_reads : nat;
  detached : list (thread unit)
}.

Definition emit (e : event) (p : process) : process :=
  let 'Build_process tr n reads ths := p in
  {| trace := tr ++ [e]; next_call := n; clock_reads := reads;
     detached := ths |}.

Definition issue (e : nat -> event) (p : process) : process :=
  let 'Build_process tr n reads ths := p in
  {| trace := tr ++ [e n]; next_call := S n; clock_reads := reads;
     detached := ths |}.

Definition read_clock (p : process) : process :=
  let 'Build_process tr n reads ths := p in
  {| trace := tr; next_call := n; clock_reads := S reads;
     detached := ths |}.

Definition detach (ths' : list (thread unit)) (p : process) : process :=
  let 'Build_process tr n reads ths := p in
  {| trace := tr; next_call := n; clock_reads := reads;
     detached := ths ++ ths' |}.

Definition is_settled {A : Type} (t : thread A) : bool :=
  match t with Settled _ => true | _ => false end.

(** [Promise.all] over two functions in flight: it rejects as soon as one
    of them has rejected (the first in array order when both have), the
    other one running on unobserved; it resolves once both have resolved;
    otherwise it stays pending. *)
Definition join (l r : thread unit)
  : option (outcome unit * list (thread unit)) :=
  match l, r with
  | Settled (Rejected e), _ =>
      Some (Rejected e, if is_settled r then [] else [r])
  | _, Settled (Rejected e) =>
      Some (Rejected e, if is_settled l then [] else [l])
  | Settled (Resolved _), Settled (Resolved _) => Some (Resolved tt, [])
  | _, _ => None
  end.

Section EventLoop.

(** The wall clock: [clock n] is what the [n]-th call of [Date.now()]
    returns, in milliseconds. *)
Variable clock : nat -> Z.

(** Run a function body up to its first suspension.  The calls to the
    outside are issued on the way, in program order. *)
Fixpoint start (A : Type) (t : task A) (p : process) {struct t}
  : thread A * process :=
  match t with
  | Return a => (Settled (Resolved a), p)
  | Throw e => (Settled (Rejected e), p)
  | ConsoleLog m k => start A k (emit (Log m) p)
  | ConsoleError m e k => start A k (emit (LogError m e) p)
  | DateNow k => start A (k (clock (clock_reads p))) (read_clock p)
  | AwaitQuery sql k =>
      (OnQuery (next_call p) k, issue (fun id => Query id sql) p)
  | AwaitCreateTimeSeries req k =>
      (OnCreateTimeSeries (next_call p) k,
       issue (fun id => CreateTimeSeries id req) p)
  | AwaitAll l r k =>
      let '(tl, p1) := start unit l p in
      let '(tr, p2) := start unit r p1 in
      match join tl tr with
      | Some (o, rest) => start A (k o) (detach rest p2)
      | None => (OnAll tl tr k, p2)
      end
  end.

(** A call to the outside completes. *)
Inductive completion : Type :=
| QueryDone (id : nat) (o : outcome query_result)
| CreateTimeSeriesDone (id : nat) (o : outcome unit).

(** Hand a completion to a function in flight: the function suspended on
    that call runs on up to its next suspension, and so does a
    [Promise.all] above it that this settles. *)
Fixpoint resume (A : Type) (c : completion) (t : thread A) (p : process)
  {struct t} : thread A * process :=
  match t with
  | Settled o => (Settled o, p)
  | OnQuery id k =>
      match c with
      | QueryDone id' o =>
          if Nat.eqb id id' then start A (k o) p else (OnQuery id k, p)
      | _ => (OnQuery id k, p)
      end
  | OnCreateTimeSeries id k =>
      match c with
      | CreateTimeSeriesDone id' o =>
          if Nat.eqb id id' then start A (k o) p
          else (OnCreateTimeSeries id k, p)
      | _ => (OnCreateTimeSeries id k, p)
      end
  | OnAll l r k =>
      let '(tl, p1) := resume unit c l p in
      let '(tr, p2) := resume unit c r p1 in
      match join tl tr with
      | Some (o, rest) => start A (k o) (detach rest p2)
      | None => (OnAll tl tr k, p2)
      end
  end.

(** The event loop: the functions started by the scheduler and still
    known to it, and the process. *)
Record loop : Type := {
  threads : list (thread unit);
  proc : process
}.

Definition boot : loop :=
  {| threads := [];
     proc := {| trace := []; next_call := 0%nat; clock_reads := 0%nat;
                detached := [] |} |}.

Fixpoint resume_each (c : completion) (ths : list (thread unit))
  (p : process) : list (thread unit) * process :=
  match ths with
  | [] => ([], p)
  | t :: ths' =>
      let '(t', p1) := resume unit c t p in
      let '(ths'', p2) := resume_each c ths' p1 in
      (t' :: ths'', p2)
  end.

(** Detached functions join the ones the loop keeps resuming. *)
Definition adopt (ths : list (thread unit)) (p : process) : loop :=
  {| threads := ths ++ detached p;
     proc := {| trace := trace p; next_call := next_call p;
                clock_reads := clock_reads p; detached := [] |} |}.

(** What happens to the loop: the timer fires, or a call completes. *)
Inductive input : Type :=
| Tick
| Done (c : completion).

Section Scheduled.

(** The function registered with [cron.schedule]. *)
Variable job : task unit.

Definition step (l : loop) (i : input) : loop :=
  match i with
  | Tick =>
      let '(t, p) := start unit job (proc l) in
      adopt (threads l ++ [t]) p
  | Done c =>
      let '(ths, p) := resume_each c (threads l) (proc l) in
      adopt ths p
  end.

Definition run (inputs : list input) (l : loop) : loop :=
  fold_left step inputs l.

End Scheduled.
End EventLoop.

(** The requests submitted to the monitoring backend, in order. *)
Definition submissions (tr : list event) : list create_request :=
  omap (fun e => match e with CreateTimeSeries _ req => Some req
                         | _ => None end) tr.

(** The queries sent to the database, in order. *)
Definition queries (tr : list event) : list string :=
  omap (fun e => match e with Query _ sql => Some sql | _ => None end) tr.

(** [s] begins with [pre]. *)
Fixpoint starts_with (pre s : string) : bool :=
  match pre with
  | EmptyString => true
  | String a pre' =>
      match s with
      | String b s' => Ascii.eqb a b && starts_with pre' s'
      | EmptyString => false
      end
  end.

(** The lines with which [publishMetric] announces that it was called,
    with which value and for which metric type (line 64), in order. *)
Definition announcements (tr : list event) : list string :=
  omap (fun e => match e with
                 | Log m =>
                     if starts_with "Publishing metric value " m
                     then Some m else None
                 | _ => None
                 end) tr.

(** The errors written with [console.error], in order. *)
Definition errors (tr : list event) : list (string * error) :=
  omap (fun e => match e with LogError m err => Some (m, err)
                         | _ => None end) tr.

End Async.

(* ===================================================================== *)
(** ** The program (index.js) *)
(* ===================================================================== *)

Module Program.
Import JS Model Async.

(** [arr[i]]: [undefined] out of range. *)
Definition index {A : Type} (arr : list A) (i : nat) : option A := arr !! i.

(** [obj.key] where [obj] may be [undefined]: reading a property of
    [undefined] throws a TypeError; a key the object lacks reads as
    [undefined]. *)
Definition member (obj : option row) (key : string) : task val :=
  match obj with
  | None =>
      Throw (TypeError
        ("Cannot read properties of undefined (reading '" +:+ key +:+ "')"))
  | Some o => Return (default Undefined (o !! key))
  end.

(** The text of the query (lines 36-41). *)
Definition query : string :=
  let count := "COUNT(" +:+ "*" +:+ ")" in
  String "010" ("    SELECT" +:+ String "010"
  ("      " +:+ count +:+
     " FILTER (WHERE status = 'PENDING') AS backlog_count," +:+ String "010"
  ("      " +:+ count +:+
     " FILTER (WHERE status = 'PROCESSED') AS processed_count" +:+ String "010"
  ("    FROM orders;" +:+ String "010" "  ")))).

(** [getOrderCounts] (lines 34-53). *)
Definition getOrderCounts : task order_counts :=
  _ ← console_log "Fetching order counts from AlloyDB...";
  try_catch
    (res ← await_query query;
     backlog_count ← member (index (rows res) 0) "backlog_count";
     let backlogCount := or_zero (parseInt backlog_count) in
     processed_count ← member (index (rows res) 0) "processed_count";
     let processedCount := or_zero (parseInt processed_count) in
     _ ← console_log ("Current backlog count: " +:+ show backlogCount);
     _ ← console_log ("Current processed count: " +:+ show processedCount);
     mret {| backlogCount := backlogCount;
             processedCount := processedCount |})
    (fun err =>
     _ ← console_error "Error fetching order counts:" err;
     Throw err).

Section Deployment.

(** The environment the process was started in. *)
Variable env : environment.

(** [metricServiceClient.projectPath], a function of the client library
    that formats the resource name of a project; the library is not part
    of the repository.  For a given project identifier, or none, it
    returns the name or throws. *)
Variable projectPath : option string -> outcome string.

(** The [timeSeries] constant of [publishMetric] (lines 66-93); [now] is
    what [Date.now()] returned while the literal was evaluated. *)
Definition build_timeSeries (metricValue : number) (metricType : string)
  (now : Z) : list time_series :=
  [ {| metric := {| metric_type := metricType |};
       resource :=
         {| resource_type := "global";
            labels := {| project_id := projectId env |} |};
       points :=
         [ {| interval :=
                {[ "endTime" := {| seconds := Qmake now 1000 |} ]};
              value := {| int64Value := metricValue |} |} ];
       metricKind := "GAUGE";
       valueType := "INT64" |} ].

(** The [request] constant of [publishMetric] (lines 95-98), once
    [projectPath] has returned [path]. *)
Definition build_request (path : string) (metricValue : number)
  (metricType : string) (now : Z) : create_request :=
  {| name := path;
     timeSeries := build_timeSeries metricValue metricType now |}.

(** [publishMetric] (lines 63-106).  The call of [projectPath] (line 96)
    comes after the clock was read (line 82) and before the [try]
    (line 100): when it throws, nothing is submitted and the function
    rejects. *)
Definition publishMetric (metricValue : number) (metricType : string)
  : task unit :=
  _ ← console_log
        ("Publishing metric value " +:+ show metricValue +:+ " to "
         +:+ metricType);
  now ← date_now;
  path ← call (projectPath (projectId env));
  let request := build_request path metricValue metricType now in
  try_catch
    (_ ← await_createTimeSeries request;
     console_log "Successfully published custom metric.")
    (fun err => console_error "Error publishing metric:" err).

(** [main] (lines 108-121). *)
Definition main : task unit :=
  _ ← console_log
        "Cron job execution started: Fetching and publishing metrics...";
  try_catch
    (counts ← getOrderCounts;
     _ ← await_all
           (publishMetric (backlogCount counts) customMetricType)
           (publishMetric (processedCount counts) processedMetricType);
     console_log "Cron job execution finished successfully.")
    (fun error => console_error "Error during cron job execution:" error).

End Deployment.
End Program.

(* ===================================================================== *)
(** ** Running the program *)
(* ===================================================================== *)

Module Run.
Import JS Model Async Program.

Section World.

Variable clock : nat -> Z.
Variable env : environment.
Variable projectPath : option string -> outcome string.

(** Hand completions, in the order given, to a function in flight. *)
Definition deliver {A : Type} (cs : list completion)
  (tp : thread A * process) : thread A * process :=
  fold_left (fun tp c => resume clock A c (fst tp) (snd tp)) cs tp.

(** One call of [getOrderCounts], the database answering with [q]. *)
Definition fetch (q : outcome query_result) (p : process)
  : thread order_counts * process :=
  deliver [QueryDone (next_call p) q] (start clock _ getOrderCounts p).

(** One call of [publishMetric], the backend answering with [o]. *)
Definition publish (metricValue : number) (metricType : string)
  (o : outcome unit) (p : process) : thread unit * process :=
  deliver [CreateTimeSeriesDone (next_call p) o]
    (start clock _ (publishMetric env projectPath metricValue metricType) p).

(** The timer fires: [main] runs up to its first suspension. *)
Definition fire (p : process) : thread unit * process :=
  start clock _ (main env projectPath) p.

(** A cycle up to the answer [q] of the database. *)
Definition fetch_phase (q : outcome query_result) (p : process)
  : thread unit * process :=
  deliver [QueryDone (next_call p) q] (fire p).

(** The completions of a whole cycle whose first call has number [n]: the
    database answers with [q]; the backend answers the submission of the
    backlog count with [ob] and that of the processed count with [op], in
    either order. *)
Definition completions (n : nat) (q : outcome query_result)
  (ob op : outcome unit) (backlog_first : bool) : list completion :=
  QueryDone n q ::
  (if backlog_first
   then [CreateTimeSeriesDone (S n) ob; CreateTimeSeriesDone (S (S n)) op]
   else [CreateTimeSeriesDone (S (S n)) op; CreateTimeSeriesDone (S n) ob]).

(** A whole cycle of [main], started in process state [p]. *)
Definition cycle (q : outcome query_result) (ob op : outcome unit)
  (backlog_first : bool) (p : process) : thread unit * process :=
  deliver (completions (next_call p) q ob op backlog_first) (fire p).

(** The same cycle as seen by the event loop: a tick of the timer
    registered with [cron.schedule], then the completions. *)
Definition cycle_inputs (n : nat) (q : outcome query_result)
  (ob op : outcome unit) (backlog_first : bool) : list input :=
  Tick :: map Done (completions n q ob op backlog_first).

Definition schedule (inputs : list input) (l : loop) : loop :=
  run clock (main env projectPath) inputs l.

End World.

(** No function is in flight. *)
Definition quiescent (l : loop) : bool :=
  forallb is_settled (threads l)
  && match detached (proc l) with [] => true | _ => false end.

(** The process [p] after it emitted [evs], made [calls] calls to the
    outside and read the clock [reads] times. *)
Definition after (p : process) (evs : list event) (calls reads : nat)
  : process :=
  {| trace := trace p ++ evs;
     next_call := (calls + next_call p)%nat;
     clock_reads := (reads + clock_reads p)%nat;
     detached := detached p |}.

(** What [console] prints when a submission settles. *)
Definition settle_log (o : outcome unit) : event :=
  match o with
  | Resolved _ => Log "Successfully published custom metric."
  | Rejected e => LogError "Error publishing metric:" e
  end.

(** The counts read off a result row (lines 44-45). *)
Definition counts_of_row (r : row) : order_counts :=
  {| backlogCount :=
       or_zero (parseInt (default Undefined (r !! "backlog_count")));
     processedCount :=
       or_zero (parseInt (default Undefined (r !! "processed_count"))) |}.

(** The points of a request: metric type, value and interval. *)
Definition points_of (req : create_request)
  : list (string * number * gmap string timestamp) :=
  flat_map (fun ts =>
    map (fun pt => (metric_type (metric ts), int64Value (value pt),
                    interval pt)) (points ts)) (timeSeries req).

(** A request carrying one time series with one point. *)
Definition single_point (req : create_request) : bool :=
  match timeSeries req with
  | [ts] => match points ts with [_] => true | _ => false end
  | _ => false
  end.

(** After white space and an optional sign, [s] begins with a decimal
    digit. *)
Definition leading_digit (s : string) : bool :=
  match snd (strip_sign (trim_start s)) with
  | String c _ => bool_decide (is_Some (digit c))
  | EmptyString => false
  end.

(** [s] is empty or begins with a character that is not a decimal
    digit. *)
Definition no_digit_ahead (s : string) : bool :=
  match s with
  | String c _ => negb (bool_decide (is_Some (digit c)))
  | EmptyString => true
  end.

(** A value with nothing to read a count from: absent, [null], a boolean,
    or a string that does not begin with an integer. *)
Definition blank (v : val) : bool :=
  match v with
  | Undefined | Null | Bool _ => true
  | Number _ => false
  | Str s => negb (leading_digit s)
  end.

(** One or more decimal digits and nothing else. *)
Definition all_digits (s : string) : bool :=
  match s with
  | EmptyString => false
  | _ => forallb (fun c => bool_decide (is_Some (digit c)))
           (list_ascii_of_string s)
  end.

(** A numeric value: a number, or the text of an integer (an optional
    minus sign, then digits only). *)
Definition numeric (v : val) : bool :=
  match v with
  | Number _ => true
  | Str (String c r as s) =>
      if Ascii.eqb c "-" then all_digits r else all_digits s
  | _ => false
  end.

(** What [console.error] shows for a submission that failed. *)
Definition failure (o : outcome unit) : list (string * error) :=
  match o with
  | Resolved _ => []
  | Rejected e => [("Error publishing metric:", e)]
  end.


(** The events of a whole cycle in which the fetch yields [counts] and
    [projectPath] returns [path]: the first call has number [n], the
    clock is read for the [reads]-th time first. *)
Definition cycle_events (clock : nat -> Z) (env : environment)
  (path : string) (n reads : nat)
  (counts : order_counts) (ob op : outcome unit) (backlog_first : bool)
  : list event :=
  [ Log "Cron job execution started: Fetching and publishing metrics...";
    Log "Fetching order counts from AlloyDB...";
    Query n query;
    Log ("Current backlog count: " +:+ show (backlogCount counts));
    Log ("Current processed count: " +:+ show (processedCount counts));
    Log ("Publishing metric value " +:+ show (backlogCount counts)
         +:+ " to " +:+ customMetricType);
    CreateTimeSeries (S n)
      (build_request env path (backlogCount counts) customMetricType
         (clock reads));
    Log ("Publishing metric value " +:+ show (processedCount counts)
         +:+ " to " +:+ processedMetricType);
    CreateTimeSeries (S (S n))
      (build_request env path (processedCount counts)
         processedMetricType (clock (S reads))) ]
  ++ (if backlog_first then [settle_log ob; settle_log op]
      else [settle_log op; settle_log ob])
  ++ [ Log "Cron job execution finished successfully." ].

(** The events of a cycle in which the fetch yields [counts] and
    [projectPath] throws [e]: both calls of [publishMetric] are entered,
    neither submits, and [main] reports the error of the first. *)
Definition unnamed_cycle_events (n : nat) (counts : order_counts)
  (e : error) : list event :=
  [ Log "Cron job execution started: Fetching and publishing metrics...";
    Log "Fetching order counts from AlloyDB...";
    Query n query;
    Log ("Current backlog count: " +:+ show (backlogCount counts));
    Log ("Current processed count: " +:+ show (processedCount counts));
    Log ("Publishing metric value " +:+ show (backlogCount counts)
         +:+ " to " +:+ customMetricType);
    Log ("Publishing metric value " +:+ show (processedCount counts)
         +:+ " to " +:+ processedMetricType);
    LogError "Error during cron job execution:" e ].

(** The events of a cycle whose fetch fails with [e]. *)
Definition failed_cycle_events (n : nat) (e : error) : list event :=
  [ Log "Cron job execution started: Fetching and publishing metrics...";
    Log "Fetching order counts from AlloyDB...";
    Query n query;
    LogError "Error fetching order counts:" e;
    LogError "Error during cron job execution:" e ].

(** What the backend has been sent: for each point, its metric type, its
    value and the seconds of its end time. *)
Definition published (tr : list event)
  : list (string * number * option Q) :=
  flat_map (fun req =>
    map (fun '(ty, v, iv) => (ty, v, seconds <$> iv !! "endTime"))
      (points_of req)) (submissions tr).

(** The rest of [publishMetric] once [createTimeSeries] has settled
    (lines 101-105). *)
Definition submitted (o : outcome unit) : task unit :=
  try_catch
    (_ ← settle o; console_log "Successfully published custom metric.")
    (fun err => console_error "Error publishing metric:" err).

(** The rest of [main] once [Promise.all] has settled (lines 113-120). *)
Definition finishing (o : outcome unit) : task unit :=
  try_catch
    (_ ← settle o; console_log "Cron job execution finished successfully.")
    (fun error => console_error "Error during cron job execution:" error).

(** An invocation of [main] that has its counts: it waits for both
    submissions, for one of them, or it is over, resolved. *)
Inductive publishing : thread unit -> Prop :=
| BothPending a b :
    publishing (OnAll (OnCreateTimeSeries a submitted)
                  (OnCreateTimeSeries b submitted) finishing)
| BacklogPending a :
    publishing (OnAll (OnCreateTimeSeries a submitted)
                  (Settled (Resolved tt)) finishing)
| ProcessedPending b :
    publishing (OnAll (Settled (Resolved tt))
                  (OnCreateTimeSeries b submitted) finishing)
| Over : publishing (Settled (Resolved tt)).

(** Events of the publishing phase: no query, and submissions of a single
    point only. *)
Definition tame (evs : list event) : bool :=
  forallb (fun e => match e with
                    | Query _ _ => false
                    | CreateTimeSeries _ req => single_point req
                    | _ => true
                    end) evs.

(** [p'] is [p] after some tame events, with nothing more detached. *)
Definition quietly (p p' : process) : Prop :=
  (exists evs, trace p' = trace p ++ evs /\ tame evs = true) /\
  detached p' = detached p.

(** An invocation of [main] at any time: it waits for its counts, and
    whatever the database answers takes it quietly to [publishing]; or it
    is [publishing]. *)
Inductive in_cycle (clock : nat -> Z) : thread unit -> Prop :=
| Fetching n k :
    (forall o p,
       publishing (fst (start clock unit (k o) p)) /\
       quietly p (snd (start clock unit (k o) p))) ->
    in_cycle clock (OnQuery n k)
| Publishing t : publishing t -> in_cycle clock t.

(** Every invocation the loop knows of is [in_cycle], and nothing is
    detached. *)
Definition steady (clock : nat -> Z) (l : loop) : Prop :=
  Forall (in_cycle clock) (threads l) /\ detached (proc l) = [].

(** How often the timer fires in [inputs]. *)
Fixpoint ticks (inputs : list input) : nat :=
  match inputs with
  | [] => 0
  | Tick :: inputs' => S (ticks inputs')
  | Done _ :: inputs' => ticks inputs'
  end.

End Run.

(* ===================================================================== *)
(** ** Sample worlds *)
(* ===================================================================== *)

Module Sample.
Import JS Model Async Program Run.

Definition env : environment :=
  {[ "GOOGLE_CLOUD_PROJECT" := "demo-project";
     "DB_HOST" := "10.0.0.5";
     "DB_PORT" := "5433" ]}.

(** The host variable is set, to the empty string. *)
Definition env_empty_host : environment :=
  {[ "GOOGLE_CLOUD_PROJECT" := "demo-project";
     "DB_HOST" := EmptyString ]}.

(** No project identifier is set. *)
Definition env_no_project : environment :=
  {[ "DB_HOST" := "10.0.0.5"; "DB_PORT" := "5433" ]}.

(** What the client library throws when it is asked for the name of an
    undefined project. *)
Definition no_project : error :=
  TypeError "Cannot read properties of undefined (reading 'toString')".

(** A client library in the manner of the real one: it formats the name
    of a project, and throws when the project is undefined. *)
Definition projectPath (project : option string) : outcome string :=
  match project with
  | Some id => Resolved ("projects/" +:+ id)
  | None => Rejected no_project
  end.

(** A clock that advances by a minute between two readings. *)
Definition clock (n : nat) : Z := 1700000000000 + 60000 * Z.of_nat n.


(** Two pending orders and one processed order, as the driver delivers
    them: [COUNT] is a [bigint], which arrives as text. *)
Definition two_pending_one_processed : query_result :=
  {| rows := [ {[ "backlog_count" := Str "2";
                  "processed_count" := Str "1" ]} ] |}.

(** A backlog column that begins with digits but is not a number. *)
Definition digits_then_letters : query_result :=
  {| rows := [ {[ "backlog_count" := Str "12abc";
                  "processed_count" := Str "1" ]} ] |}.

(** A row without the backlog column and with a [null] processed one. *)
Definition missing_and_null : query_result :=
  {| rows := [ {[ "processed_count" := Null ]} ] |}.

Definition no_rows : query_result := {| rows := [] |}.

Definition quota_exceeded : error := External "quota exceeded".
Definition connection_refused : error := External "ECONNREFUSED".

End Sample.

(* ===================================================================== *)
(** ** The orders table and the query *)
(* ===================================================================== *)

Module Database.
Import JS Model.

(** A row of [public.orders] (dbschema.sql): every column but [id] may be
    [NULL]. *)
Record order : Type := {
  id : Z;
  amount : option Z;
  category : option string;
  description : option string;
  payment : option string;
  status : option string
}.

(** [column = 'literal'] in SQL: unknown, not false, when the column is
    [NULL]. *)
Definition equals (column : option string) (literal : string)
  : option bool :=
  match column with
  | None => None
  | Some s => Some (String.eqb s literal)
  end.

(** [COUNT FILTER (WHERE cond)] over all rows: the number of rows on which
    [cond] is true; the rows on which it is false or unknown are left
    out. *)
Fixpoint count_filter (cond : order -> option bool) (table : list order)
  : Z :=
  match table with
  | [] => 0
  | o :: table' =>
      match cond o with
      | Some true => 1 + count_filter cond table'
      | _ => count_filter cond table'
      end
  end.

(** How the driver hands over a [bigint], the type of [COUNT]: as decimal
    text, or, when a type parser is installed for it, as the number
    nearest to it. *)
Inductive bigint_as : Type :=
| AsText
| AsNumber.

Definition bigint (mode : bigint_as) (z : Z) : val :=
  match mode with
  | AsText => Str (decimal z)
  | AsNumber => Number z
  end.

(** What a database holding [table] answers to the query of
    [getOrderCounts] (index.js, lines 36-41).  An aggregate query without
    [GROUP BY] answers with exactly one row, on an empty table too. *)
Definition select_counts (mode : bigint_as) (table : list order)
  : query_result :=
  {| rows :=
       [ {[ "backlog_count" :=
              bigint mode
                (count_filter (fun o => equals (status o) "PENDING") table);
            "processed_count" :=
              bigint mode
                (count_filter (fun o => equals (status o) "PROCESSED") table)
         ]} ] |}.

(** The orders whose status is [s]. *)
Definition with_status (s : string) (table : list order) : list order :=
  List.filter (fun o => bool_decide (status o = Some s)) table.

End Database.

(* ===================================================================== *)
(** ** What every run keeps to *)
(* ===================================================================== *)

Module Conduct.
Import JS Model Async Program Run.

Section World.

Variable clock : nat -> Z.
Variable env : environment.
Variable projectPath : option string -> outcome string.

(** A request as [publishMetric] makes them for [main]: named as
    [projectPath] names the project, with one time series, for one of the
    two metric types, an INT64 gauge on the global resource labelled with
    the project.  When [projectPath] throws, no request is such a
    request. *)
Definition addressed (req : create_request) : bool :=
  match projectPath (projectId env) with
  | Resolved path => String.eqb (name req) path
  | Rejected _ => false
  end
  && match timeSeries req with
     | [ts] =>
         (String.eqb (metric_type (metric ts)) customMetricType
          || String.eqb (metric_type (metric ts)) processedMetricType)
         && String.eqb (resource_type (resource ts)) "global"
         && bool_decide (project_id (labels (resource ts)) = projectId env)
         && String.eqb (metricKind ts) "GAUGE"
         && String.eqb (valueType ts) "INT64"
     | _ => false
     end.

(** The end times of the points submitted, in order. *)
Definition stamps (tr : list event) : list (option Q) :=
  map snd (published tr).

(** The readings of the clock from the [from]-th on, [count] of them, as
    end times. *)
Definition readings (from count : nat) : list (option Q) :=
  map (fun i => Some (Qmake (clock i) 1000)) (seq from count).

(** [p'] is [p] after events that hold no query and at most [k] requests,
    all of them [addressed], and with nothing more detached; when
    [projectPath] returns, the clock was read once per request, and the
    requests carry these readings in order. *)
Definition advance (k : nat) (p p' : process) : Prop :=
  detached p' = detached p /\
  exists evs,
    trace p' = trace p ++ evs /\
    queries evs = [] /\
    forallb addressed (submissions evs) = true /\
    (length (submissions evs) <= k)%nat /\
    (forall path,
       projectPath (projectId env) = Resolved path ->
       clock_reads p' = (length (submissions evs) + clock_reads p)%nat /\
       stamps evs = readings (clock_reads p) (length (submissions evs))).

(** An invocation of [main] at any time: it waits for its counts, and
    whatever the database answers takes it to [publishing] with at most
    two requests; or it is [publishing]. *)
Inductive in_flight : thread unit -> Prop :=
| Awaiting n k :
    (forall o p,
       publishing (fst (start clock unit (k o) p)) /\
       advance 2 p (snd (start clock unit (k o) p))) ->
    in_flight (OnQuery n k)
| Sending t : publishing t -> in_flight t.

(** The invocations still waiting for their counts. *)
Definition awaits_counts {A : Type} (t : thread A) : nat :=
  match t with
  | OnQuery _ _ => 1
  | _ => 0
  end.

Fixpoint waiting (ths : list (thread unit)) : nat :=
  match ths with
  | [] => 0
  | t :: ths' => (awaits_counts t + waiting ths')%nat
  end.

(** The loop after the timer fired [fired] times: every invocation is
    [in_flight], nothing is detached, every request submitted so far is
    [addressed], and the requests submitted and still to come are at most
    two per tick; when [projectPath] returns, the clock was read once per
    request, and the requests carry the readings in order. *)
Definition orderly (fired : nat) (l : loop) : Prop :=
  Forall in_flight (threads l) /\
  detached (proc l) = [] /\
  forallb addressed (submissions (trace (proc l))) = true /\
  (length (submissions (trace (proc l))) + 2 * waiting (threads l)
   <= 2 * fired)%nat /\
  (forall path,
     projectPath (projectId env) = Resolved path ->
     clock_reads (proc l) = length (submissions (trace (proc l))) /\
     stamps (trace (proc l)) =
       readings 0 (length (submissions (trace (proc l))))).

End World.

End Conduct.

(* ===================================================================== *)
(** ** Sample tables *)
(* ===================================================================== *)

Module Scenario.
Import JS Model.

Definition placed (n : Z) (s : option string) : Database.order :=
  {| Database.id := n; Database.amount := None; Database.category := None;
     Database.description := None; Database.payment := None;
     Database.status := s |}.

(** The sample data of the README: two pending orders and a processed
    one. *)
Definition readme_orders : list Database.order :=
  [ placed 1 (Some "PENDING"); placed 2 (Some "PENDING");
    placed 3 (Some "PROCESSED") ].

(** An order without a status, as dbschema.sql allows. *)
Definition unlabelled : Database.order := placed 4 None.

(** A status in lower case. *)
Definition lower_case : Database.order := placed 5 (Some "pending").

(** Three pending orders and none processed, as the driver delivers
    them. *)
Definition three_pending_none_processed : query_result :=
  {| rows := [ {[ "backlog_count" := Str "3";
                  "processed_count" := Str "0" ]} ] |}.

(** The timer fires twice before the database answers; the second query
    is answered first, with [three_pending_none_processed], the first
    with two pending orders and a processed one. *)
Definition overlapping : list Async.input :=
  [ Async.Tick; Async.Tick;
    Async.Done (Async.QueryDone 1 (Resolved three_pending_none_processed));
    Async.Done (Async.QueryDone 0
      (Resolved
         {| rows := [ {[ "backlog_count" := Str "2";
                         "processed_count" := Str "1" ]} ] |})) ].

(** A port that is not a number. *)
Definition env_port_word : environment :=
  {[ "GOOGLE_CLOUD_PROJECT" := "demo-project"; "DB_PORT" := "default" ]}.

End Scenario.
(* ===================================================================== *)
(** ** Properties *)
(* ===================================================================== *)

Import JS Model Async Program Run.

Section Facts.

Variable clock : nat -> Z.
Variable env : environment.
Variable projectPath : option string -> outcome string.

Abbreviation fetch := (fetch clock).
Abbreviation publish := (publish clock env projectPath).
Abbreviation fire := (fire clock env projectPath).
Abbreviation fetch_phase := (fetch_phase clock env projectPath).
Abbreviation cycle := (cycle clock env projectPath).
Abbreviation schedule := (schedule clock env projectPath).
Abbreviation build_request := (build_request env).
Abbreviation cycle_events := (cycle_events clock env).

(** *** Reading numbers *)

Lemma parseInt_string_no_digit s :
  leading_digit s = false -> parseInt_string s = NaN.
Proof.
  unfold leading_digit, parseInt_string.
  destruct (strip_sign (trim_start s)) as [sign [|c r]]; cbn; [reflexivity|].
  destruct (digit c); [|reflexivity].
  rewrite bool_decide_eq_false. intros []. eauto.
Qed.

Lemma parseInt_blank v : blank v = true -> or_zero (parseInt v) = Int 0.
Proof.
  destruct v as [| |[]|z|s]; try reflexivity; try discriminate.
  cbn [blank]. intros H. apply negb_true_iff in H.
  unfold parseInt. cbn [to_string].
  rewrite (parseInt_string_no_digit _ H). reflexivity.
Qed.

Ltac eval_digit :=
  match goal with
  | |- context [digit ?c] =>
      let v := eval vm_compute in (digit c) in change (digit c) with v
  end; cbv iota.

Lemma digits_stop rest acc :
  no_digit_ahead rest = true -> digits rest true acc = Some acc.
Proof.
  destruct rest as [|c rest]; cbn; [reflexivity|].
  destruct (digit c); [|reflexivity].
  rewrite bool_decide_eq_true_2 by eauto. discriminate.
Qed.

Lemma append_cons c s rest : String c s +:+ rest = String c (s +:+ rest).
Proof. reflexivity. Qed.

Lemma digits_of_uint_acc d rest (acc : positive) :
  no_digit_ahead rest = true ->
  digits (NilEmpty.string_of_uint d +:+ rest) true (Z.pos acc) =
  Some (Z.pos (Pos.of_uint_acc d acc)).
Proof.
  intros Hrest. revert acc.
  induction d as [|d IH|d IH|d IH|d IH|d IH|d IH|d IH|d IH|d IH|d IH];
    intros acc; [apply digits_stop, Hrest|..];
    cbn [NilEmpty.string_of_uint Pos.of_uint_acc];
    rewrite append_cons; cbn [digits];
    eval_digit; rewrite <- IH; f_equal; lia.
Qed.

Lemma digits_of_uint d rest seen :
  no_digit_ahead rest = true ->
  digits (NilEmpty.string_of_uint d +:+ rest) seen 0 =
  match Pos.of_uint d with
  | Npos p => Some (Z.pos p)
  | N0 => match d with
          | Decimal.Nil => digits rest seen 0
          | _ => Some 0
          end
  end.
Proof.
  intros Hrest. revert seen.
  induction d as [|d IH|d IH|d IH|d IH|d IH|d IH|d IH|d IH|d IH|d IH];
    intros seen; [reflexivity|..];
    cbn [NilEmpty.string_of_uint Pos.of_uint];
    rewrite append_cons; cbn [digits]; eval_digit.
  1: { change (10 * 0 + (48 - 48)) with 0. rewrite IH.
       destruct (Pos.of_uint d); [destruct d|]; try reflexivity.
       apply digits_stop, Hrest. }
  all: match goal with
       | |- digits _ true ?z = _ =>
           let v := eval vm_compute in z in change z with v
       end; apply digits_of_uint_acc, Hrest.
Qed.

Lemma text_nonnil d :
  d <> Decimal.Nil ->
  NilZero.string_of_uint d = NilEmpty.string_of_uint d.
Proof. destruct d; [congruence|..]; reflexivity. Qed.

Lemma text_unsigned d rest :
  d <> Decimal.Nil ->
  strip_sign (trim_start (NilEmpty.string_of_uint d +:+ rest)) =
    (1, NilEmpty.string_of_uint d +:+ rest).
Proof. destruct d; [congruence|..]; reflexivity. Qed.

(** [parseInt] reads the decimal text of an integer as the number nearest
    to that integer, and ignores what follows the digits. *)
Lemma parseInt_decimal_prefix z rest :
  no_digit_ahead rest = true ->
  parseInt_string (decimal z +:+ rest) = of_integer z.
Proof.
  intros Hrest. unfold decimal, parseInt_string.
  destruct z as [|p|p]; cbn [Z.to_int NilZero.string_of_int].
  - change (NilZero.string_of_uint Decimal.zero)
      with (NilEmpty.string_of_uint Decimal.zero).
    rewrite text_unsigned by discriminate.
    rewrite (digits_of_uint _ _ _ Hrest). reflexivity.
  - pose proof (DecimalPos.Unsigned.to_uint_nonnil p) as Hn.
    rewrite (text_nonnil _ Hn), (text_unsigned _ _ Hn),
      (digits_of_uint _ _ _ Hrest), DecimalPos.Unsigned.of_to.
    reflexivity.
  - pose proof (DecimalPos.Unsigned.to_uint_nonnil p) as Hn.
    rewrite (text_nonnil _ Hn).
    change (strip_sign (trim_start (String "-" ?s +:+ rest)))
      with (-1, s +:+ rest).
    cbv beta iota.
    rewrite (digits_of_uint _ _ _ Hrest), DecimalPos.Unsigned.of_to.
    reflexivity.
Qed.

Lemma append_empty s : s +:+ EmptyString = s.
Proof.
  induction s as [|c s IH]; [reflexivity|]. rewrite append_cons, IH.
  reflexivity.
Qed.

Lemma parseInt_decimal z : parseInt_string (decimal z) = of_integer z.
Proof.
  rewrite <- (append_empty (decimal z)). apply parseInt_decimal_prefix.
  reflexivity.
Qed.

(** Up to 2^53 in magnitude an integer is a number, and its text is its
    decimal digits. *)
Lemma exact_bound z : exact z = true -> Z.abs z <= 9007199254740992.
Proof. unfold exact. intros H. apply Z.leb_le in H. exact H. Qed.

Lemma nearest_double_exact a :
  0 <= a <= 9007199254740992 -> nearest_double a = Some a.
Proof.
  intros H. unfold nearest_double.
  change (2 ^ 53) with 9007199254740992.
  destruct (Z.ltb_spec a 9007199254740992) as [Hlt|Hge]; [reflexivity|].
  assert (a = 9007199254740992) as -> by lia.
  vm_compute. reflexivity.
Qed.

Lemma of_integer_exact z : exact z = true -> of_integer z = Int z.
Proof.
  intros H. apply exact_bound in H. unfold of_integer.
  rewrite nearest_double_exact by lia. f_equal. lia.
Qed.

Lemma decimal_negative p : decimal (Z.neg p) = "-" +:+ decimal (Z.pos p).
Proof. reflexivity. Qed.

Lemma show_exact z : exact z = true -> show (Int z) = decimal z.
Proof.
  intros H. unfold show. rewrite (of_integer_exact _ H).
  apply exact_bound in H. unfold show_double.
  change (2 ^ 53) with 9007199254740992.
  destruct z as [|p|p].
  - reflexivity.
  - change (Z.pos p <? 0) with false. cbv iota.
    destruct (Z.leb_spec (Z.pos p) 9007199254740992); [reflexivity|lia].
  - change (Z.neg p <? 0) with true. cbv iota.
    change (- Z.neg p) with (Z.pos p).
    destruct (Z.leb_spec (Z.pos p) 9007199254740992); [reflexivity|lia].
Qed.

Lemma parseInt_show z :
  exact z = true -> parseInt_string (show (Int z)) = Int z.
Proof.
  intros H. rewrite (show_exact _ H), parseInt_decimal.
  apply of_integer_exact, H.
Qed.

Lemma of_integer_not_nan z : of_integer z <> NaN.
Proof. unfold of_integer. destruct (nearest_double (Z.abs z)); discriminate. Qed.

Lemma or_zero_int z : or_zero (Int z) = Int z.
Proof. cbn. destruct (Z.eqb_spec z 0); congruence. Qed.

Lemma decimal_nonempty z : decimal z <> EmptyString.
Proof.
  unfold decimal.
  destruct z as [|p|p]; cbn [Z.to_int NilZero.string_of_int];
    [discriminate| |discriminate].
  pose proof (DecimalPos.Unsigned.to_uint_nonnil p) as Hn.
  rewrite (text_nonnil _ Hn).
  destruct (Pos.to_uint p); [congruence|..]; discriminate.
Qed.

Lemma or_else_nonempty s d : s <> EmptyString -> or_else (Some s) d = s.
Proof. destruct s; [congruence|reflexivity]. Qed.

(** *** Evaluating runs *)

Lemma deliver_cons A c cs (t : thread A) p :
  deliver clock (c :: cs) (t, p) = deliver clock cs (resume clock A c t p).
Proof. reflexivity. Qed.

Lemma deliver_nil A (tp : thread A * process) :
  deliver clock [] tp = tp.
Proof. reflexivity. Qed.

(** Decide the comparisons of call numbers left in the goal. *)
Ltac ids :=
  repeat match goal with
  | |- context [Nat.eqb ?a ?b] =>
      let E := fresh in
      destruct (Nat.eqb_spec a b) as [E|E]; try (exfalso; lia); clear E
  end.

(** Run the program: one completion at a time, innermost first. *)
Ltac crank1 := repeat (progress (cbn -[Nat.eqb deliver]; ids)).
Ltac crank :=
  crank1; repeat (rewrite deliver_cons; crank1); rewrite ?deliver_nil.
Ltac flatten :=
  unfold after, cycle_events, unnamed_cycle_events, failed_cycle_events;
  cbn -[Nat.eqb];
  rewrite ?app_nil_r, <- ?app_assoc; cbn [app].

Lemma submissions_app tr evs :
  submissions (tr ++ evs) = submissions tr ++ submissions evs.
Proof. apply omap_app. Qed.

Lemma queries_app tr evs : queries (tr ++ evs) = queries tr ++ queries evs.
Proof. apply omap_app. Qed.

Lemma errors_app tr evs : errors (tr ++ evs) = errors tr ++ errors evs.
Proof. apply omap_app. Qed.

Lemma announcements_app tr evs :
  announcements (tr ++ evs) = announcements tr ++ announcements evs.
Proof. apply omap_app. Qed.

Lemma published_app tr evs :
  published (tr ++ evs) = published tr ++ published evs.
Proof. unfold published. rewrite submissions_app. apply flat_map_app. Qed.

Lemma resume_settled c (t : thread unit) p :
  is_settled t = true -> resume clock unit c t p = (t, p).
Proof. destruct t; cbn; intros; try discriminate. reflexivity. Qed.


Lemma adopt_calm ths p :
  detached p = [] -> adopt ths p = {| threads := ths; proc := p |}.
Proof.
  destruct p as [tr n r d]. cbn. intros ->. unfold adopt. cbn.
  rewrite app_nil_r. reflexivity.
Qed.


(** *** What one call of each function does *)

Lemma fetch_rejected e p :
  fetch (Rejected e) p =
  (Settled (Rejected e),
   after p [ Log "Fetching order counts from AlloyDB...";
             Query (next_call p) query;
             LogError "Error fetching order counts:" e ] 1 0).
Proof.
  destruct p as [tr n r d]. unfold Run.fetch. crank. flatten. reflexivity.
Qed.

Lemma fetch_empty res p :
  rows res = [] ->
  fetch (Resolved res) p =
  (Settled (Rejected (TypeError
     "Cannot read properties of undefined (reading 'backlog_count')")),
   after p [ Log "Fetching order counts from AlloyDB...";
             Query (next_call p) query;
             LogError "Error fetching order counts:"
               (TypeError
                  "Cannot read properties of undefined (reading 'backlog_count')")
           ] 1 0).
Proof.
  intros H. destruct res as [rws]. cbn in H. subst rws.
  destruct p as [tr n r d]. unfold Run.fetch. crank. flatten. reflexivity.
Qed.

Lemma fetch_row res r rest p :
  rows res = r :: rest ->
  fetch (Resolved res) p =
  (Settled (Resolved (counts_of_row r)),
   after p [ Log "Fetching order counts from AlloyDB...";
             Query (next_call p) query;
             Log ("Current backlog count: "
                  +:+ show (backlogCount (counts_of_row r)));
             Log ("Current processed count: "
                  +:+ show (processedCount (counts_of_row r))) ] 1 0).
Proof.
  intros H. destruct res as [rws]. cbn in H. subst rws.
  destruct p as [tr n r0 d]. unfold Run.fetch. crank. flatten. reflexivity.
Qed.

Lemma fetch_resolved_inv q p counts :
  fst (fetch q p) = Settled (Resolved counts) ->
  exists res r rest,
    q = Resolved res /\ rows res = r :: rest /\ counts = counts_of_row r.
Proof.
  destruct q as [res|e].
  - destruct (rows res) as [|r rest] eqn:Hrows.
    + rewrite (fetch_empty _ _ Hrows). discriminate.
    + rewrite (fetch_row _ _ _ _ Hrows). cbn [fst]. intros [= <-]. eauto 10.
  - rewrite fetch_rejected. discriminate.
Qed.

Lemma fetch_rejected_inv q p e :
  fst (fetch q p) = Settled (Rejected e) ->
  q = Rejected e \/
  exists res,
    q = Resolved res /\ rows res = [] /\
    e = TypeError
          "Cannot read properties of undefined (reading 'backlog_count')".
Proof.
  destruct q as [res|e'].
  - destruct (rows res) as [|r rest] eqn:Hrows.
    + rewrite (fetch_empty _ _ Hrows). cbn [fst]. intros [= <-]. eauto.
    + rewrite (fetch_row _ _ _ _ Hrows). discriminate.
  - rewrite fetch_rejected. cbn [fst]. intros [= <-]. auto.
Qed.

(** Counts delivered as decimal text, the way the driver delivers a
    [bigint], come back as the numbers nearest to the integers they
    denote. *)
Lemma fetch_decimal_counts (b pc : Z) p :
  fst (fetch
         (Resolved
            {| rows := [ {[ "backlog_count" := Str (decimal b);
                            "processed_count" := Str (decimal pc) ]} ] |})
         p) =
  Settled (Resolved {| backlogCount := or_zero (of_integer b);
                       processedCount := or_zero (of_integer pc) |}).
Proof.
  erewrite fetch_row by reflexivity. cbn [fst]. unfold counts_of_row.
  rewrite lookup_insert_eq, lookup_insert_ne by discriminate.
  rewrite lookup_singleton_eq. cbn [default from_option id].
  unfold parseInt. cbn [to_string]. rewrite !parseInt_decimal.
  reflexivity.
Qed.

(** Once answered, the call is settled. *)
Lemma fetch_settles q p :
  (exists counts, fst (fetch q p) = Settled (Resolved counts)) \/
  (exists e, fst (fetch q p) = Settled (Rejected e)).
Proof.
  destruct q as [res|e]; [destruct (rows res) eqn:Hrows|].
  - rewrite (fetch_empty _ _ Hrows). eauto.
  - rewrite (fetch_row _ _ _ _ Hrows). eauto.
  - rewrite fetch_rejected. eauto.
Qed.

(** Expose the call of [projectPath] and put its result in its place. *)
Ltac named H :=
  unfold Run.publish, Run.cycle, Run.fetch_phase, Run.fire, completions,
    main, publishMetric;
  rewrite H.

Lemma publish_run path v ty o p :
  projectPath (projectId env) = Resolved path ->
  publish v ty o p =
  (Settled (Resolved tt),
   after p [ Log ("Publishing metric value " +:+ show v +:+ " to " +:+ ty);
             CreateTimeSeries (next_call p)
               (build_request path v ty (clock (clock_reads p)));
             settle_log o ] 1 1).
Proof.
  intros Hpath. destruct p as [tr n r0 d]. named Hpath.
  destruct o as [[]|e]; crank; flatten; reflexivity.
Qed.

(** When [projectPath] throws, [publishMetric] rejects: it has announced
    itself and read the clock, and has submitted nothing. *)
Lemma publish_unnamed e v ty o p :
  projectPath (projectId env) = Rejected e ->
  publish v ty o p =
  (Settled (Rejected e),
   after p [ Log ("Publishing metric value " +:+ show v +:+ " to " +:+ ty) ]
     0 1).
Proof.
  intros Hpath. destruct p as [tr n r0 d]. named Hpath.
  destruct o as [[]|e']; crank; flatten; reflexivity.
Qed.

Lemma cycle_row path res r rest ob op bf p :
  projectPath (projectId env) = Resolved path ->
  rows res = r :: rest ->
  cycle (Resolved res) ob op bf p =
  (Settled (Resolved tt),
   after p (cycle_events path (next_call p) (clock_reads p)
              (counts_of_row r) ob op bf) 3 2).
Proof.
  intros Hpath H. destruct res as [rws]. cbn in H. subst rws.
  destruct p as [tr n r0 d]. named Hpath.
  destruct bf, ob as [[]|eb], op as [[]|ep]; crank; flatten; reflexivity.
Qed.

(** When [projectPath] throws, the cycle is over once the database has
    answered: [main] reports the error and resolves. *)
Lemma cycle_row_unnamed e res r rest ob op bf p :
  projectPath (projectId env) = Rejected e ->
  rows res = r :: rest ->
  cycle (Resolved res) ob op bf p =
  (Settled (Resolved tt),
   after p (unnamed_cycle_events (next_call p) (counts_of_row r) e) 1 2).
Proof.
  intros Hpath H. destruct res as [rws]. cbn in H. subst rws.
  destruct p as [tr n r0 d]. named Hpath.
  destruct bf, ob as [[]|eb], op as [[]|ep]; crank; flatten; reflexivity.
Qed.

Lemma fetch_phase_row_unnamed e res r rest ob op bf p :
  projectPath (projectId env) = Rejected e ->
  rows res = r :: rest ->
  fetch_phase (Resolved res) p = cycle (Resolved res) ob op bf p.
Proof.
  intros Hpath H. rewrite (cycle_row_unnamed _ _ _ _ _ _ _ _ Hpath H).
  destruct res as [rws]. cbn in H. subst rws.
  destruct p as [tr n r0 d]. named Hpath.
  crank; flatten; reflexivity.
Qed.

(** Both requests are out before the backend has answered either. *)
Lemma fetch_phase_row path res r rest p :
  projectPath (projectId env) = Resolved path ->
  rows res = r :: rest ->
  is_settled (fst (fetch_phase (Resolved res) p)) = false /\
  submissions (trace (snd (fetch_phase (Resolved res) p))) =
    submissions (trace p) ++
      [ build_request path (backlogCount (counts_of_row r))
          customMetricType (clock (clock_reads p));
        build_request path (processedCount (counts_of_row r))
          processedMetricType (clock (S (clock_reads p))) ].
Proof.
  intros Hpath H. destruct res as [rws]. cbn in H. subst rws.
  destruct p as [tr n r0 d]. named Hpath. crank.
  split; [reflexivity|]. cbn [snd trace].
  rewrite <- !app_assoc, submissions_app. reflexivity.
Qed.

Lemma fetch_phase_failed q p e :
  fst (fetch q p) = Settled (Rejected e) ->
  fetch_phase q p =
  (Settled (Resolved tt), after p (failed_cycle_events (next_call p) e) 1 0).
Proof.
  intros H. apply fetch_rejected_inv in H as [->|(res & -> & Hrows & ->)].
  - destruct p as [tr n r0 d]. unfold Run.fetch_phase, Run.fire.
    crank. flatten. reflexivity.
  - destruct res as [rws]. cbn in Hrows. subst rws.
    destruct p as [tr n r0 d]. unfold Run.fetch_phase, Run.fire.
    crank. flatten. reflexivity.
Qed.

Lemma cycle_failed q ob op bf p e :
  fst (fetch q p) = Settled (Rejected e) ->
  cycle q ob op bf p = fetch_phase q p.
Proof.
  intros H. apply fetch_rejected_inv in H as [->|(res & -> & Hrows & ->)].
  - destruct p as [tr n r0 d].
    unfold Run.cycle, Run.fetch_phase, Run.fire, completions.
    destruct bf; crank; reflexivity.
  - destruct res as [rws]. cbn in Hrows. subst rws.
    destruct p as [tr n r0 d].
    unfold Run.cycle, Run.fetch_phase, Run.fire, completions.
    destruct bf; crank; reflexivity.
Qed.

Lemma submissions_cycle_events path n reads counts ob op bf :
  submissions (cycle_events path n reads counts ob op bf) =
  [ build_request path (backlogCount counts) customMetricType (clock reads);
    build_request path (processedCount counts) processedMetricType
      (clock (S reads)) ].
Proof. destruct bf, ob, op; reflexivity. Qed.

Lemma announcements_cycle_events path n reads counts ob op bf :
  announcements (cycle_events path n reads counts ob op bf) =
  [ "Publishing metric value " +:+ show (backlogCount counts)
      +:+ " to " +:+ customMetricType;
    "Publishing metric value " +:+ show (processedCount counts)
      +:+ " to " +:+ processedMetricType ].
Proof. destruct bf, ob, op; reflexivity. Qed.

Lemma errors_cycle_events path n reads counts ob op bf :
  errors (cycle_events path n reads counts ob op bf) =
  if bf then failure ob ++ failure op else failure op ++ failure ob.
Proof. destruct bf, ob as [[]|], op as [[]|]; reflexivity. Qed.

Lemma queries_cycle_events path n reads counts ob op bf :
  queries (cycle_events path n reads counts ob op bf) = [query].
Proof. destruct bf, ob, op; reflexivity. Qed.

Lemma published_cycle_events path n reads counts ob op bf :
  published (cycle_events path n reads counts ob op bf) =
  [ (customMetricType, backlogCount counts,
     Some (Qmake (clock reads) 1000));
    (processedMetricType, processedCount counts,
     Some (Qmake (clock (S reads)) 1000)) ].
Proof.
  unfold published. rewrite submissions_cycle_events. cbn.
  rewrite !lookup_singleton_eq. reflexivity.
Qed.

Lemma submissions_unnamed_cycle_events n counts e :
  submissions (unnamed_cycle_events n counts e) = [].
Proof. reflexivity. Qed.

Lemma announcements_unnamed_cycle_events n counts e :
  announcements (unnamed_cycle_events n counts e) =
  [ "Publishing metric value " +:+ show (backlogCount counts)
      +:+ " to " +:+ customMetricType;
    "Publishing metric value " +:+ show (processedCount counts)
      +:+ " to " +:+ processedMetricType ].
Proof. reflexivity. Qed.

Lemma errors_unnamed_cycle_events n counts e :
  errors (unnamed_cycle_events n counts e) =
  [ ("Error during cron job execution:", e) ].
Proof. reflexivity. Qed.

Lemma queries_unnamed_cycle_events n counts e :
  queries (unnamed_cycle_events n counts e) = [query].
Proof. reflexivity. Qed.

(** *** The cycle as the event loop sees it *)





(** *** Every run of the event loop *)

Lemma quietly_refl p : quietly p p.
Proof.
  split; [|reflexivity]. exists []. rewrite app_nil_r. split; reflexivity.
Qed.

Lemma quietly_trans p1 p2 p3 :
  quietly p1 p2 -> quietly p2 p3 -> quietly p1 p3.
Proof.
  intros [(evs & Ht & He) Hd] [(evs' & Ht' & He') Hd'].
  split; [|congruence].
  exists (evs ++ evs'). rewrite Ht', Ht, <- app_assoc. split; [reflexivity|].
  unfold tame in *. rewrite forallb_app, He, He'. reflexivity.
Qed.

(** A step that appended the events seen in the goal was quiet. *)
Ltac quiet :=
  split; [|cbn [detached]; rewrite ?app_nil_r; reflexivity];
  cbn [trace]; rewrite <- ?app_assoc;
  first [ eexists; split; [reflexivity | reflexivity]
        | exists []; rewrite app_nil_r; split; reflexivity ].

Lemma fire_in_cycle p :
  in_cycle clock (fst (fire p)) /\
  trace (snd (fire p)) =
    trace p ++
      [ Log "Cron job execution started: Fetching and publishing metrics...";
        Log "Fetching order counts from AlloyDB...";
        Query (next_call p) query ] /\
  detached (snd (fire p)) = detached p.
Proof.
  destruct p as [tr n r0 d]. unfold Run.fire, main, publishMetric.
  destruct (projectPath (projectId env)) as [path|epath]; cbn -[Nat.eqb];
    (split; [|split; [rewrite <- !app_assoc; reflexivity | reflexivity]]);
    apply Fetching; intros o [tr' n' r' d'];
    destruct o as [[[|r rest]]|e]; cbn -[Nat.eqb];
    (split; [once constructor | quiet]).
Qed.

Lemma resume_publishing c t p :
  publishing t ->
  publishing (fst (resume clock unit c t p)) /\
  quietly p (snd (resume clock unit c t p)).
Proof.
  intros H. destruct H, c as [id o|id o], p as [tr n r0 d];
    cbn -[Nat.eqb]; try (split; [constructor | quiet]).
  - destruct (Nat.eqb a id), (Nat.eqb b id), o as [[]|e]; cbn -[Nat.eqb];
      (split; [constructor | quiet]).
  - destruct (Nat.eqb a id), o as [[]|e]; cbn -[Nat.eqb];
      (split; [constructor | quiet]).
  - destruct (Nat.eqb b id), o as [[]|e]; cbn -[Nat.eqb];
      (split; [constructor | quiet]).
Qed.

Lemma resume_in_cycle c t p :
  in_cycle clock t ->
  in_cycle clock (fst (resume clock unit c t p)) /\
  quietly p (snd (resume clock unit c t p)).
Proof.
  intros [n k Hk|t' Ht].
  - destruct c as [id o|id o]; cbn -[Nat.eqb].
    + destruct (Nat.eqb n id).
      * destruct (Hk o p) as [Hp Hq].
        split; [apply Publishing, Hp | exact Hq].
      * split; [apply Fetching, Hk | apply quietly_refl].
    + split; [apply Fetching, Hk | apply quietly_refl].
  - destruct (resume_publishing c t' p Ht) as [Hp Hq].
    split; [apply Publishing, Hp | exact Hq].
Qed.

Lemma resume_each_in_cycle c ths : forall p,
  Forall (in_cycle clock) ths ->
  Forall (in_cycle clock) (fst (resume_each clock c ths p)) /\
  quietly p (snd (resume_each clock c ths p)).
Proof.
  induction ths as [|t ths IH]; intros p H; cbn.
  - split; [constructor | apply quietly_refl].
  - inversion H as [|? ? Ht Hs]; subst.
    destruct (resume_in_cycle c t p Ht) as [Ht' Hq].
    destruct (resume clock unit c t p) as [t' p1]. cbn [fst snd] in *.
    destruct (IH p1 Hs) as [Hs' Hq'].
    destruct (resume_each clock c ths p1) as [ths' p2]. cbn [fst snd] in *.
    split; [constructor; assumption | eapply quietly_trans; eassumption].
Qed.

(** A tick starts one more invocation and sends one more query; a
    completion is handled quietly. *)
Lemma step_steady l i :
  steady clock l ->
  steady clock (step clock (main env projectPath) l i) /\
  match i with
  | Tick =>
      exists evs,
        trace (proc (step clock (main env projectPath) l i)) =
          trace (proc l) ++ evs /\
        queries evs = [query] /\ submissions evs = []
  | Done _ => quietly (proc l) (proc (step clock (main env projectPath) l i))
  end.
Proof.
  intros [Hs Hd]. destruct i as [|c]; unfold step.
  - destruct (fire_in_cycle (proc l)) as (Ht & Htr & Hd').
    change (start clock unit (main env projectPath) (proc l))
      with (fire (proc l)).
    destruct (fire (proc l)) as [t p]. cbn [fst snd] in *.
    rewrite Hd in Hd'.
    rewrite adopt_calm by exact Hd'. cbn [threads proc].
    split; [split; [|exact Hd']|].
    + apply Forall_app. split; [exact Hs|].
      constructor; [exact Ht | constructor].
    + eexists. split; [exact Htr|]. split; reflexivity.
  - destruct (resume_each_in_cycle c (threads l) (proc l) Hs) as [Hs' Hq].
    destruct (resume_each clock c (threads l) (proc l)) as [ths p].
    cbn [fst snd] in *.
    assert (detached p = []) as Hd' by (destruct Hq as [_ ->]; exact Hd).
    rewrite adopt_calm by exact Hd'. cbn [threads proc].
    split; [|exact Hq]. split; [exact Hs' | exact Hd'].
Qed.

Lemma tame_queries evs : tame evs = true -> queries evs = [].
Proof.
  induction evs as [|[] evs IH]; cbn; intros H;
    try discriminate; try (apply andb_prop in H as [_ H]); auto.
Qed.

Lemma tame_submissions evs :
  tame evs = true -> forallb single_point (submissions evs) = true.
Proof.
  induction evs as [|[] evs IH]; cbn; intros H;
    try discriminate; auto.
  apply andb_prop in H as [H1 H2]. rewrite H1. auto.
Qed.

(** Whatever happens to the loop, in whatever order, it stays steady: one
    query has been sent per tick, and every request submitted carries a
    single point. *)
Lemma schedule_steady inputs : forall l,
  steady clock l ->
  steady clock (schedule inputs l) /\
  exists evs,
    trace (proc (schedule inputs l)) = trace (proc l) ++ evs /\
    queries evs = repeat query (ticks inputs) /\
    forallb single_point (submissions evs) = true.
Proof.
  unfold Run.schedule, run.
  induction inputs as [|i inputs IH]; intros l H; cbn [fold_left].
  - split; [exact H|]. exists []. rewrite app_nil_r. repeat split.
  - destruct (step_steady l i H) as [H1 Hi].
    destruct (IH _ H1) as (H2 & evs2 & Ht2 & Hq2 & Hs2).
    split; [exact H2|].
    destruct i as [|c].
    + destruct Hi as (evs1 & Ht1 & Hq1 & Hs1).
      exists (evs1 ++ evs2). rewrite Ht2, Ht1, <- app_assoc.
      split; [reflexivity|].
      rewrite queries_app, submissions_app, Hq1, Hq2, Hs1.
      split; [reflexivity | exact Hs2].
    + destruct Hi as [(evs1 & Ht1 & He1) _].
      exists (evs1 ++ evs2). rewrite Ht2, Ht1, <- app_assoc.
      split; [reflexivity|].
      rewrite queries_app, submissions_app, forallb_app,
        (tame_queries _ He1), (tame_submissions _ He1), Hs2.
      split; [exact Hq2 | reflexivity].
Qed.

Lemma steady_boot : steady clock boot.
Proof. split; [constructor | reflexivity]. Qed.

Lemma in_cycle_not_rejected t e :
  in_cycle clock t -> t <> Settled (Rejected e).
Proof. intros [n k _|t' []]; discriminate. Qed.

(** *** The claims about a cycle *)

(** C1.  In a cycle whose fetch resolves with [backlogCount = b] and
    [processedCount = pc], [publishMetric] is entered exactly twice, first
    with [b] and the backlog metric type, then with [pc] and the processed
    metric type; this whatever the client library and the backend do.
    When [projectPath] returns a name, exactly two requests are
    submitted, the ones [publishMetric] builds for these arguments; when
    it throws, none is. *)
Theorem main_publishes_each_count_once (b pc : number) q ob op bf p :
  fst (fetch q p) =
    Settled (Resolved {| backlogCount := b; processedCount := pc |}) ->
  announcements (trace (snd (cycle q ob op bf p))) =
  announcements (trace p) ++
    [ "Publishing metric value " +:+ show b +:+ " to " +:+ customMetricType;
      "Publishing metric value " +:+ show pc +:+ " to "
        +:+ processedMetricType ] /\
  (forall path,
     projectPath (projectId env) = Resolved path ->
     submissions (trace (snd (cycle q ob op bf p))) =
     submissions (trace p) ++
       [ build_request path b customMetricType (clock (clock_reads p));
         build_request path pc processedMetricType
           (clock (S (clock_reads p))) ]) /\
  (forall e,
     projectPath (projectId env) = Rejected e ->
     submissions (trace (snd (cycle q ob op bf p))) = submissions (trace p)).
Proof.
  intros H.
  apply fetch_resolved_inv in H as (res & r & rest & -> & Hrows & Hc).
  destruct (projectPath (projectId env)) as [path|e] eqn:Hpath.
  - rewrite (cycle_row _ _ _ _ _ _ _ _ Hpath Hrows), <- Hc.
    cbn [snd after trace].
    rewrite submissions_app, submissions_cycle_events, announcements_app,
      announcements_cycle_events.
    split; [reflexivity|].
    split; [intros path' [= <-]; reflexivity | intros e' [=]].
  - rewrite (cycle_row_unnamed _ _ _ _ _ _ _ _ Hpath Hrows), <- Hc.
    cbn [snd after trace].
    rewrite submissions_app, submissions_unnamed_cycle_events,
      announcements_app, announcements_unnamed_cycle_events.
    split; [reflexivity|].
    split; [intros path' [=] | intros e' _; apply app_nil_r].
Qed.

(** C2.  In a cycle whose fetch rejects with [e], [main] is settled, and
    resolved, as soon as the database has answered: [publishMetric] was
    not entered and nothing was submitted, the error was written twice to
    [console.error] (by [getOrderCounts] and by [main]), nothing is left
    running, and whatever is delivered afterwards changes nothing. *)
Theorem main_fetch_failure_publishes_nothing q e ob op bf p :
  fst (fetch q p) = Settled (Rejected e) ->
  fst (fetch_phase q p) = Settled (Resolved tt) /\
  cycle q ob op bf p = fetch_phase q p /\
  announcements (trace (snd (fetch_phase q p))) = announcements (trace p) /\
  submissions (trace (snd (fetch_phase q p))) = submissions (trace p) /\
  errors (trace (snd (fetch_phase q p))) =
    errors (trace p) ++
      [ ("Error fetching order counts:", e);
        ("Error during cron job execution:", e) ] /\
  detached (snd (fetch_phase q p)) = detached p.
Proof.
  intros H. rewrite (cycle_failed _ _ _ _ _ _ H), (fetch_phase_failed _ _ _ H).
  cbn [fst snd after trace detached].
  rewrite submissions_app, errors_app, announcements_app.
  repeat split; cbn; apply app_nil_r.
Qed.

(** C3, as amended.  When [projectPath] returns a name, [publishMetric]
    always resolves: when [createTimeSeries] rejects with an error, the
    error is written to [console.error] and nothing is thrown; in a cycle
    whose fetch succeeded both requests are submitted before the backend
    has answered either, so the failure of one cannot keep the other from
    being made, and whatever the backend answers the failures are logged,
    [main] resolves and nothing is left running.  When [projectPath]
    throws [e], which it does before the [try], [publishMetric] rejects
    with [e] and submits nothing; [main] catches [e], writes it to
    [console.error] and resolves.  So in every run of the event loop,
    whatever the timer, the database, the client library and the backend
    do and in whatever order, no invocation of [main] ever rejects. *)
Theorem publishMetric_failure_is_contained v ty o q counts ob op bf p :
  fst (fetch q p) = Settled (Resolved counts) ->
  (forall path,
     projectPath (projectId env) = Resolved path ->
     (fst (publish v ty o p) = Settled (Resolved tt) /\
      errors (trace (snd (publish v ty o p))) =
        errors (trace p) ++ failure o) /\
     (is_settled (fst (fetch_phase q p)) = false /\
      submissions (trace (snd (fetch_phase q p))) =
        submissions (trace p) ++
          [ build_request path (backlogCount counts) customMetricType
              (clock (clock_reads p));
            build_request path (processedCount counts) processedMetricType
              (clock (S (clock_reads p))) ]) /\
     (fst (cycle q ob op bf p) = Settled (Resolved tt) /\
      detached (snd (cycle q ob op bf p)) = detached p /\
      submissions (trace (snd (cycle q ob op bf p))) =
        submissions (trace (snd (fetch_phase q p))) /\
      errors (trace (snd (cycle q ob op bf p))) =
        errors (trace p) ++
          (if bf then failure ob ++ failure op
           else failure op ++ failure ob))) /\
  (forall e,
     projectPath (projectId env) = Rejected e ->
     (fst (publish v ty o p) = Settled (Rejected e) /\
      submissions (trace (snd (publish v ty o p))) =
        submissions (trace p)) /\
     (fst (cycle q ob op bf p) = Settled (Resolved tt) /\
      detached (snd (cycle q ob op bf p)) = detached p /\
      submissions (trace (snd (cycle q ob op bf p))) =
        submissions (trace p) /\
      errors (trace (snd (cycle q ob op bf p))) =
        errors (trace p) ++ [("Error during cron job execution:", e)])) /\
  (forall inputs t e,
     In t (threads (schedule inputs boot)) -> t <> Settled (Rejected e)).
Proof.
  intros H.
  apply fetch_resolved_inv in H as (res & r & rest & -> & Hrows & ->).
  split; [|split].
  - intros path Hpath.
    destruct (fetch_phase_row _ _ _ _ p Hpath Hrows) as [Hpending Hsub].
    rewrite Hsub, (publish_run _ _ _ _ _ Hpath),
      (cycle_row _ _ _ _ _ _ _ _ Hpath Hrows).
    cbn [fst snd after trace detached].
    rewrite submissions_app, !errors_app, submissions_cycle_events,
      errors_cycle_events.
    repeat split; [| exact Hpending].
    f_equal. destruct o as [[]|]; reflexivity.
  - intros e Hpath.
    rewrite (publish_unnamed _ _ _ _ _ Hpath),
      (cycle_row_unnamed _ _ _ _ _ _ _ _ Hpath Hrows).
    cbn [fst snd after trace detached].
    rewrite !submissions_app, errors_app, submissions_unnamed_cycle_events,
      errors_unnamed_cycle_events.
    repeat split; apply app_nil_r.
  - intros inputs t e Hin.
    destruct (schedule_steady inputs boot steady_boot) as [[Hs _] _].
    apply in_cycle_not_rejected.
    rewrite List.Forall_forall in Hs. apply Hs, Hin.
Qed.

(** C4, as amended.  When the result has a first row, [getOrderCounts]
    resolves, and a count is zero whenever its column is absent from the
    row, [null], a boolean, or a string that does not begin (after white
    space and an optional sign) with a decimal digit.  A column holding
    the decimal text of an integer [n], followed or not by characters
    other than digits, gives the number nearest to [n]: the count [n]
    itself when [n] is at most 2^53 in magnitude. *)
Theorem getOrderCounts_blank_fields_are_zero res r rest p :
  rows res = r :: rest ->
  exists counts,
    fst (fetch (Resolved res) p) = Settled (Resolved counts) /\
    (blank (default Undefined (r !! "backlog_count")) = true ->
     backlogCount counts = Int 0) /\
    (blank (default Undefined (r !! "processed_count")) = true ->
     processedCount counts = Int 0) /\
    (forall n tail,
       r !! "backlog_count" = Some (Str (decimal n +:+ tail)) ->
       no_digit_ahead tail = true ->
       backlogCount counts = or_zero (of_integer n) /\
       (exact n = true -> backlogCount counts = Int n)) /\
    (forall n tail,
       r !! "processed_count" = Some (Str (decimal n +:+ tail)) ->
       no_digit_ahead tail = true ->
       processedCount counts = or_zero (of_integer n) /\
       (exact n = true -> processedCount counts = Int n)).
Proof.
  intros Hrows. exists (counts_of_row r).
  rewrite (fetch_row _ _ _ _ Hrows). cbn [fst counts_of_row].
  split; [reflexivity|].
  split; [apply parseInt_blank|]. split; [apply parseInt_blank|].
  split; intros n tail Hcol Htail; unfold counts_of_row;
    cbn [backlogCount processedCount]; rewrite Hcol;
    cbn [default from_option id]; unfold parseInt; cbn [to_string];
    rewrite (parseInt_decimal_prefix _ _ Htail);
    (split; [reflexivity|]); intros Hn;
    rewrite (of_integer_exact _ Hn); apply or_zero_int.
Qed.

(** C5, as amended.  The time series [publishMetric] builds is one
    series of kind GAUGE with one point; the interval of that point has an
    end time, the clock reading divided by 1000, and no start time.  And
    a request [publishMetric] submits carries the series built with the
    clock reading taken in that call. *)
Theorem publishMetric_point_has_end_time_only v ty now :
  (exists ts pt,
     build_timeSeries env v ty now = [ts] /\
     points ts = [pt] /\
     metricKind ts = "GAUGE" /\
     interval pt !! "endTime" = Some {| seconds := Qmake now 1000 |} /\
     interval pt !! "startTime" = None) /\
  (forall o p req,
     List.In req (submissions (trace (snd (publish v ty o p)))) ->
     List.In req (submissions (trace p)) \/
     timeSeries req = build_timeSeries env v ty (clock (clock_reads p))).
Proof.
  split.
  - eexists _, _. split; [reflexivity|]. split; [reflexivity|].
    split; [reflexivity|]. cbn [interval]. split.
    + apply lookup_singleton_eq.
    + apply lookup_singleton_ne. discriminate.
  - intros o p req.
    destruct (projectPath (projectId env)) as [path|e] eqn:Hpath.
    + rewrite (publish_run _ _ _ _ _ Hpath). cbn [snd after trace].
      rewrite submissions_app. intros Hin.
      apply List.in_app_or in Hin as [Hin|Hin]; [left; exact Hin|].
      right. destruct o; cbn in Hin; destruct Hin as [<-|[]]; reflexivity.
    + rewrite (publish_unnamed _ _ _ _ _ Hpath). cbn [snd after trace].
      rewrite submissions_app. intros Hin.
      apply List.in_app_or in Hin as [Hin|[]]. left. exact Hin.
Qed.

(** C6.  One call of [getOrderCounts] sends exactly one query, whatever
    the answer, and is settled once it is answered; when it resolves, both
    counts are read off the first row of that one answer.  So a whole
    cycle sends exactly one query too; and in every run of the event
    loop, overlapping cycles included, the queries sent are one per tick
    of the timer. *)
Theorem getOrderCounts_single_query q ob op bf p :
  queries (trace (snd (fetch q p))) = queries (trace p) ++ [query] /\
  next_call (snd (fetch q p)) = S (next_call p) /\
  is_settled (fst (fetch q p)) = true /\
  (forall counts,
     fst (fetch q p) = Settled (Resolved counts) ->
     exists res r rest,
       q = Resolved res /\ rows res = r :: rest /\
       backlogCount counts =
         or_zero (parseInt (default Undefined (r !! "backlog_count"))) /\
       processedCount counts =
         or_zero (parseInt (default Undefined (r !! "processed_count")))) /\
  queries (trace (snd (cycle q ob op bf p))) = queries (trace p) ++ [query] /\
  (forall inputs,
     queries (trace (proc (schedule inputs boot))) =
       repeat query (ticks inputs)).
Proof.
  split; [|split; [|split; [|split; [|split]]]].
  - destruct (fetch_settles q p) as [[counts E]|[e E]].
    + apply fetch_resolved_inv in E as (res & r & rest & -> & Hrows & ->).
      rewrite (fetch_row _ _ _ _ Hrows). cbn [snd after trace].
      rewrite queries_app. reflexivity.
    + apply fetch_rejected_inv in E as [->|(res & -> & Hrows & ->)].
      * rewrite fetch_rejected. cbn [snd after trace].
        rewrite queries_app. reflexivity.
      * rewrite (fetch_empty _ _ Hrows). cbn [snd after trace].
        rewrite queries_app. reflexivity.
  - destruct q as [res|e]; [destruct (rows res) eqn:Hrows|].
    + rewrite (fetch_empty _ _ Hrows). reflexivity.
    + rewrite (fetch_row _ _ _ _ Hrows). reflexivity.
    + rewrite fetch_rejected. reflexivity.
  - destruct (fetch_settles q p) as [[counts ->]|[e ->]]; reflexivity.
  - intros counts H.
    apply fetch_resolved_inv in H as (res & r & rest & -> & Hrows & ->).
    exists res, r, rest. repeat split. exact Hrows.
  - destruct (fetch_settles q p) as [[counts E]|[e E]].
    + apply fetch_resolved_inv in E as (res & r & rest & -> & Hrows & ->).
      destruct (projectPath (projectId env)) as [path|epath] eqn:Hpath.
      * rewrite (cycle_row _ _ _ _ _ _ _ _ Hpath Hrows).
        cbn [snd after trace].
        rewrite queries_app, queries_cycle_events. reflexivity.
      * rewrite (cycle_row_unnamed _ _ _ _ _ _ _ _ Hpath Hrows).
        cbn [snd after trace].
        rewrite queries_app, queries_unnamed_cycle_events. reflexivity.
    + rewrite (cycle_failed _ _ _ _ _ _ E), (fetch_phase_failed _ _ _ E).
      cbn [snd after trace]. rewrite queries_app. reflexivity.
  - intros inputs.
    destruct (schedule_steady inputs boot steady_boot)
      as (_ & evs & -> & Hq & _).
    exact Hq.
Qed.

(** C7, as amended.  When [projectPath] returns a name, one call of
    [publishMetric] submits exactly one request, under that name, with
    exactly one time series for its metric type, of kind GAUGE and value
    type INT64, on the global resource labelled with the project
    identifier of the environment, holding exactly one point with the
    value passed in; when [projectPath] throws, the call submits nothing.
    And every request a cycle submits carries a single point, as does
    every request submitted in any run of the event loop: points are not
    batched, neither across calls nor across cycles. *)
Theorem publishMetric_submits_one_point v ty o q ob op bf p :
  (forall path,
     projectPath (projectId env) = Resolved path ->
     exists req ts pt,
       submissions (trace (snd (publish v ty o p))) =
         submissions (trace p) ++ [req] /\
       name req = path /\
       timeSeries req = [ts] /\ points ts = [pt] /\
       metric_type (metric ts) = ty /\
       metricKind ts = "GAUGE" /\ valueType ts = "INT64" /\
       resource_type (resource ts) = "global" /\
       project_id (labels (resource ts)) = env !! "GOOGLE_CLOUD_PROJECT" /\
       int64Value (value pt) = v) /\
  (forall e,
     projectPath (projectId env) = Rejected e ->
     submissions (trace (snd (publish v ty o p))) = submissions (trace p)) /\
  (exists reqs,
     submissions (trace (snd (cycle q ob op bf p))) =
       submissions (trace p) ++ reqs /\
     forallb single_point reqs = true) /\
  (forall inputs,
     forallb single_point
       (submissions (trace (proc (schedule inputs boot)))) = true).
Proof.
  split; [|split; [|split]].
  - intros path Hpath. rewrite (publish_run _ _ _ _ _ Hpath).
    cbn [snd after trace]. rewrite submissions_app.
    eexists _, _, _.
    split; [f_equal; destruct o; reflexivity | repeat split; reflexivity].
  - intros e Hpath. rewrite (publish_unnamed _ _ _ _ _ Hpath).
    cbn [snd after trace]. rewrite submissions_app. apply app_nil_r.
  - destruct (fetch_settles q p) as [[counts E]|[e E]].
    + apply fetch_resolved_inv in E as (res & r & rest & -> & Hrows & ->).
      destruct (projectPath (projectId env)) as [path|epath] eqn:Hpath.
      * rewrite (cycle_row _ _ _ _ _ _ _ _ Hpath Hrows).
        cbn [snd after trace].
        rewrite submissions_app, submissions_cycle_events.
        eexists. split; reflexivity.
      * rewrite (cycle_row_unnamed _ _ _ _ _ _ _ _ Hpath Hrows).
        cbn [snd after trace].
        rewrite submissions_app, submissions_unnamed_cycle_events.
        eexists. split; reflexivity.
    + rewrite (cycle_failed _ _ _ _ _ _ E), (fetch_phase_failed _ _ _ E).
      cbn [snd after trace]. rewrite submissions_app.
      eexists. split; reflexivity.
  - intros inputs.
    destruct (schedule_steady inputs boot steady_boot)
      as (_ & evs & -> & _ & Hs).
    exact Hs.
Qed.


(** C10.  When the query resolves with no rows, [getOrderCounts] rejects
    with the TypeError raised by reading [backlog_count] off [undefined],
    after writing it to [console.error]; with a first row it resolves. *)
Theorem getOrderCounts_empty_result_rejects res p :
  (rows res = [] ->
   fst (fetch (Resolved res) p) =
     Settled (Rejected (TypeError
       "Cannot read properties of undefined (reading 'backlog_count')")) /\
   errors (trace (snd (fetch (Resolved res) p))) =
     errors (trace p) ++
       [ ("Error fetching order counts:",
          TypeError
            "Cannot read properties of undefined (reading 'backlog_count')")
       ]) /\
  (forall r rest,
     rows res = r :: rest ->
     exists counts,
       fst (fetch (Resolved res) p) = Settled (Resolved counts)).
Proof.
  split.
  - intros Hrows. rewrite (fetch_empty _ _ Hrows). cbn [fst snd after trace].
    rewrite errors_app. split; reflexivity.
  - intros r rest Hrows. rewrite (fetch_row _ _ _ _ Hrows). eauto.
Qed.

(* ===================================================================== *)
(** ** Further properties *)
(* ===================================================================== *)

(** *** The query on a table of orders *)

Lemma count_filter_with_status s table :
  Database.count_filter
    (fun o => Database.equals (Database.status o) s) table =
  Z.of_nat (length (Database.with_status s table)).
Proof.
  unfold Database.with_status.
  induction table as [|o table IH]; [reflexivity|].
  cbn [Database.count_filter List.filter]. unfold Database.equals at 1.
  destruct (Database.status o) as [t|].
  - destruct (String.eqb_spec t s) as [->|Hne].
    + rewrite bool_decide_eq_true_2 by reflexivity. cbn [length].
      rewrite IH. lia.
    + rewrite bool_decide_eq_false_2 by congruence. exact IH.
  - rewrite bool_decide_eq_false_2 by discriminate. exact IH.
Qed.

Lemma parseInt_bigint mode z :
  exact z = true -> or_zero (parseInt (Database.bigint mode z)) = Int z.
Proof.
  intros H. destruct mode; unfold parseInt; cbn [Database.bigint to_string].
  - rewrite parseInt_decimal, (of_integer_exact _ H). apply or_zero_int.
  - rewrite (parseInt_show _ H). apply or_zero_int.
Qed.

Lemma exact_below n m :
  (n <= m)%nat -> exact (Z.of_nat m) = true -> exact (Z.of_nat n) = true.
Proof.
  unfold exact. intros Hnm H. apply Z.leb_le in H. apply Z.leb_le. lia.
Qed.

Lemma with_status_length s table :
  (length (Database.with_status s table) <= length table)%nat.
Proof. apply List.filter_length_le. Qed.

Lemma select_counts_row mode table :
  exact (Z.of_nat (length table)) = true ->
  exists r,
    rows (Database.select_counts mode table) = [r] /\
    counts_of_row r =
      {| backlogCount :=
           Int (Z.of_nat (length (Database.with_status "PENDING" table)));
         processedCount :=
           Int (Z.of_nat (length (Database.with_status "PROCESSED" table)))
      |}.
Proof.
  intros H. eexists. split; [reflexivity|]. unfold counts_of_row.
  rewrite lookup_insert_eq, lookup_insert_ne by discriminate.
  rewrite lookup_singleton_eq. cbn [default from_option id].
  rewrite !count_filter_with_status.
  rewrite !parseInt_bigint
    by (eapply exact_below; [apply with_status_length | exact H]).
  reflexivity.
Qed.

Lemma with_status_app s t1 t2 :
  Database.with_status s (t1 ++ t2) =
  Database.with_status s t1 ++ Database.with_status s t2.
Proof. apply List.filter_app. Qed.

Lemma with_status_other s o table :
  Database.status o <> Some s ->
  Database.with_status s (o :: table) = Database.with_status s table.
Proof.
  intros H. unfold Database.with_status. cbn [List.filter].
  rewrite bool_decide_eq_false_2 by exact H. reflexivity.
Qed.

Lemma with_status_disjoint table :
  (length (Database.with_status "PENDING" table)
   + length (Database.with_status "PROCESSED" table) <= length table)%nat.
Proof.
  unfold Database.with_status.
  induction table as [|o table IH]; [reflexivity|].
  cbn [List.filter length].
  destruct (decide (Database.status o = Some "PENDING")) as [E|E].
  - rewrite (bool_decide_eq_true_2 _ E).
    rewrite bool_decide_eq_false_2 by (rewrite E; discriminate).
    cbn [length]. lia.
  - rewrite (bool_decide_eq_false_2 _ E).
    destruct (bool_decide (Database.status o = Some "PROCESSED"));
      cbn [length]; lia.
Qed.

(** X1.  Against a database that holds [table], a table of at most 2^53
    orders, [getOrderCounts] resolves with the number of orders whose
    status is PENDING and the number of orders whose status is PROCESSED,
    whether the driver hands the counts over as text or as numbers; on an
    empty table both are zero. *)
Theorem getOrderCounts_counts_orders mode table p :
  exact (Z.of_nat (length table)) = true ->
  fst (fetch (Resolved (Database.select_counts mode table)) p) =
  Settled (Resolved
    {| backlogCount :=
         Int (Z.of_nat (length (Database.with_status "PENDING" table)));
       processedCount :=
         Int (Z.of_nat (length (Database.with_status "PROCESSED" table)))
    |}).
Proof.
  intros H. destruct (select_counts_row mode table H) as (r & Hrows & Hc).
  rewrite (fetch_row _ _ _ _ Hrows), Hc. reflexivity.
Qed.

(** X2.  When [projectPath] returns a name, a whole cycle against a
    database that holds [table], a table of at most 2^53 orders, sends the
    backend the number of PENDING orders under the backlog metric type and
    the number of PROCESSED orders under the processed metric type, each
    once, whatever the backend answers. *)
Theorem main_publishes_order_counts path mode table ob op bf p :
  projectPath (projectId env) = Resolved path ->
  exact (Z.of_nat (length table)) = true ->
  published (trace (snd
    (cycle (Resolved (Database.select_counts mode table)) ob op bf p))) =
  published (trace p) ++
    [ (customMetricType,
       Int (Z.of_nat (length (Database.with_status "PENDING" table))),
       Some (Qmake (clock (clock_reads p)) 1000));
      (processedMetricType,
       Int (Z.of_nat (length (Database.with_status "PROCESSED" table))),
       Some (Qmake (clock (S (clock_reads p))) 1000)) ].
Proof.
  intros Hpath H.
  destruct (select_counts_row mode table H) as (r & Hrows & Hc).
  rewrite (cycle_row _ _ _ _ _ _ _ _ Hpath Hrows), Hc. cbn [snd after trace].
  rewrite published_app, published_cycle_events. reflexivity.
Qed.

(** X3.  An order whose status is [NULL], or any text other than PENDING
    and PROCESSED (the comparison is exact, so [pending] in lower case is
    such a text), is counted in neither count, wherever it stands in the
    table. *)
Theorem getOrderCounts_skips_other_statuses mode o t1 t2 p :
  Database.status o <> Some "PENDING" ->
  Database.status o <> Some "PROCESSED" ->
  fst (fetch (Resolved (Database.select_counts mode (t1 ++ o :: t2))) p) =
  fst (fetch (Resolved (Database.select_counts mode (t1 ++ t2))) p).
Proof.
  intros Hb Hp. unfold Database.select_counts.
  rewrite !count_filter_with_status, !with_status_app,
    !(with_status_other _ _ _ Hb), !(with_status_other _ _ _ Hp).
  reflexivity.
Qed.

(** X4.  Against a database that holds [table], a table of at most 2^53
    orders, the two counts [getOrderCounts] resolves with are integers
    that are not negative, and together they do not exceed the number of
    orders. *)
Theorem getOrderCounts_counts_within_table mode table p :
  exact (Z.of_nat (length table)) = true ->
  exists b pc : Z,
    fst (fetch (Resolved (Database.select_counts mode table)) p) =
      Settled (Resolved {| backlogCount := Int b;
                           processedCount := Int pc |}) /\
    0 <= b /\ 0 <= pc /\ b + pc <= Z.of_nat (length table).
Proof.
  intros H. destruct (select_counts_row mode table H) as (r & Hrows & Hc).
  rewrite (fetch_row _ _ _ _ Hrows), Hc.
  eexists _, _. split; [reflexivity|].
  pose proof (with_status_disjoint table). lia.
Qed.

(** *** What [main] and [getOrderCounts] write to the console *)

(** X5.  In a cycle whose fetch succeeded, when [projectPath] returns a
    name, the last thing [main] writes is that the execution finished
    successfully, whatever the backend answered: also when one
    submission, or both, failed.  When [projectPath] throws, the last
    thing [main] writes is that error. *)
Theorem main_reports_success_whatever_the_backend_answers
  q counts ob op bf p :
  fst (fetch q p) = Settled (Resolved counts) ->
  (forall path,
     projectPath (projectId env) = Resolved path ->
     List.last (trace (snd (cycle q ob op bf p))) (Log EmptyString) =
     Log "Cron job execution finished successfully.") /\
  (forall e,
     projectPath (projectId env) = Rejected e ->
     List.last (trace (snd (cycle q ob op bf p))) (Log EmptyString) =
     LogError "Error during cron job execution:" e).
Proof.
  intros H.
  apply fetch_resolved_inv in H as (res & r & rest & -> & Hrows & ->).
  split.
  - intros path Hpath.
    rewrite (cycle_row _ _ _ _ _ _ _ _ Hpath Hrows). cbn [snd after trace].
    unfold Run.cycle_events. rewrite !app_assoc. apply List.last_last.
  - intros e Hpath.
    rewrite (cycle_row_unnamed _ _ _ _ _ _ _ _ Hpath Hrows).
    cbn [snd after trace]. unfold Run.unnamed_cycle_events.
    match goal with
    | |- List.last (?tr ++ [?a; ?b; ?c; ?d; ?e1; ?f; ?g; ?h]) _ = _ =>
        change (tr ++ [a; b; c; d; e1; f; g; h])
          with (tr ++ [a; b; c; d; e1; f; g] ++ [h])
    end.
    rewrite app_assoc. apply List.last_last.
Qed.

(** X6.  [main] waits for both submissions: when [projectPath] returns a
    name, once the counts are there and the backend has answered one of
    the two requests, whichever and however, [main] is still pending, and
    the last event is the line written for that answer. *)
Theorem main_waits_for_both_submissions path q counts ob op p :
  fst (fetch q p) = Settled (Resolved counts) ->
  projectPath (projectId env) = Resolved path ->
  (is_settled (fst (deliver clock
     [QueryDone (next_call p) q;
      CreateTimeSeriesDone (S (next_call p)) ob] (fire p))) = false /\
   List.last (trace (snd (deliver clock
     [QueryDone (next_call p) q;
      CreateTimeSeriesDone (S (next_call p)) ob] (fire p))))
     (Log EmptyString) = settle_log ob) /\
  (is_settled (fst (deliver clock
     [QueryDone (next_call p) q;
      CreateTimeSeriesDone (S (S (next_call p))) op] (fire p))) = false /\
   List.last (trace (snd (deliver clock
     [QueryDone (next_call p) q;
      CreateTimeSeriesDone (S (S (next_call p))) op] (fire p))))
     (Log EmptyString) = settle_log op).
Proof.
  intros H Hpath.
  apply fetch_resolved_inv in H as (res & r & rest & -> & Hrows & ->).
  destruct res as [rws]. cbn in Hrows. subst rws.
  destruct p as [tr n r0 d]. named Hpath. cbn [next_call].
  split.
  - destruct ob as [[]|eb]; crank; (split; [reflexivity|]);
      cbn [snd trace]; apply List.last_last.
  - destruct op as [[]|ep]; crank; (split; [reflexivity|]);
      cbn [snd trace]; apply List.last_last.
Qed.

(** X7.  When the query is rejected with [e], [getOrderCounts] writes [e]
    to [console.error] once and rejects with the same [e]: the error is
    neither swallowed nor replaced. *)
Theorem getOrderCounts_rethrows_query_error e p :
  fst (fetch (Rejected e) p) = Settled (Rejected e) /\
  errors (trace (snd (fetch (Rejected e) p))) =
    errors (trace p) ++ [("Error fetching order counts:", e)].
Proof.
  rewrite fetch_rejected. cbn [fst snd after trace].
  rewrite errors_app. split; reflexivity.
Qed.

(** *** The end time of a point *)

(** X8.  The end time [publishMetric] submits, when [projectPath] returns
    a name, is the clock reading divided by 1000 and is not rounded: its
    seconds are a whole number [k] exactly when the reading is [1000 * k]
    milliseconds. *)
Theorem publishMetric_seconds_whole_iff path v ty o p :
  projectPath (projectId env) = Resolved path ->
  exists s,
    published (trace (snd (publish v ty o p))) =
      published (trace p) ++ [(ty, v, Some s)] /\
    forall k, (s == inject_Z k)%Q <-> clock (clock_reads p) = 1000 * k.
Proof.
  intros Hpath.
  rewrite (publish_run _ _ _ _ _ Hpath). cbn [snd after trace].
  rewrite published_app.
  exists (Qmake (clock (clock_reads p)) 1000). split.
  - f_equal. unfold published. destruct o; cbn;
      rewrite lookup_singleton_eq; reflexivity.
  - intros k. unfold Qeq, inject_Z. cbn [Qnum Qden]. lia.
Qed.

(** *** The port *)

Lemma digits_seen s : forall acc, exists z, digits s true acc = Some z.
Proof.
  induction s as [|c s IH]; intros acc; cbn [digits]; [eauto|].
  destruct (digit c); [apply IH | eauto].
Qed.

Lemma parseInt_string_leading_digit s :
  leading_digit s = true -> parseInt_string s <> NaN.
Proof.
  unfold leading_digit, parseInt_string.
  destruct (strip_sign (trim_start s)) as [sign [|c r]]; cbn [snd];
    [discriminate|].
  intros H. apply bool_decide_eq_true in H as [d Hd].
  cbn [digits]. rewrite Hd.
  destruct (digits_seen r (10 * 0 + d)) as [z ->].
  apply of_integer_not_nan.
Qed.

(** X9.  The port of [dbConfig] is [NaN] exactly when [DB_PORT] is set to
    a non-empty text that does not begin (after white space and an
    optional sign) with a decimal digit: such a text does not fall back
    to 5432. *)
Theorem dbConfig_port_nan_iff :
  port (dbConfig env) = NaN <->
  exists s,
    env !! "DB_PORT" = Some s /\ s <> EmptyString /\
    leading_digit s = false.
Proof.
  unfold dbConfig. cbn [port]. unfold parseInt. cbn [to_string].
  destruct (env !! "DB_PORT") as [[|c s]|]; cbn [or_else].
  - split; [vm_compute; discriminate|].
    intros (s & [= <-] & Hs & _). congruence.
  - split.
    + intros H. exists (String c s). split; [reflexivity|].
      split; [discriminate|].
      destruct (leading_digit (String c s)) eqn:L; [|reflexivity].
      apply parseInt_string_leading_digit in L. congruence.
    + intros (s' & [= <-] & _ & L). apply parseInt_string_no_digit, L.
  - split; [vm_compute; discriminate|].
    intros (s & [=] & _).
Qed.

(** *** Every run of the event loop, again *)

Lemma addressed_build_request path v ty now :
  projectPath (projectId env) = Resolved path ->
  ty = customMetricType \/ ty = processedMetricType ->
  Conduct.addressed env projectPath (build_request path v ty now) = true.
Proof.
  intros Hpath [->| ->]; unfold Conduct.addressed; rewrite Hpath; cbn;
    rewrite String.eqb_refl, !bool_decide_eq_true_2 by reflexivity;
    reflexivity.
Qed.

(** When [projectPath] throws, nothing that was submitted is
    [addressed]: so nothing was submitted. *)
Lemma addressed_unnamed e reqs :
  projectPath (projectId env) = Rejected e ->
  forallb (Conduct.addressed env projectPath) reqs = true -> reqs = [].
Proof.
  intros Hpath. destruct reqs as [|req reqs]; [reflexivity|].
  cbn [forallb]. unfold Conduct.addressed at 1. rewrite Hpath.
  discriminate.
Qed.

Lemma stamps_app tr evs :
  Conduct.stamps (tr ++ evs) = Conduct.stamps tr ++ Conduct.stamps evs.
Proof. unfold Conduct.stamps. rewrite published_app. apply map_app. Qed.

Lemma readings_app from a b :
  Conduct.readings clock from (a + b) =
  Conduct.readings clock from a ++ Conduct.readings clock (a + from) b.
Proof.
  unfold Conduct.readings. rewrite seq_app, map_app.
  rewrite (Nat.add_comm a from). reflexivity.
Qed.

Lemma advance_refl k p : Conduct.advance clock env projectPath k p p.
Proof.
  split; [reflexivity|]. exists []. rewrite app_nil_r.
  repeat split. cbn. lia.
Qed.

Lemma advance_trans a b p1 p2 p3 :
  Conduct.advance clock env projectPath a p1 p2 ->
  Conduct.advance clock env projectPath b p2 p3 ->
  Conduct.advance clock env projectPath (a + b) p1 p3.
Proof.
  intros (Hd & evs & Ht & Hq & Ha & Hl & Hn)
         (Hd' & evs' & Ht' & Hq' & Ha' & Hl' & Hn').
  split; [congruence|].
  exists (evs ++ evs'). rewrite Ht', Ht, <- app_assoc.
  split; [reflexivity|].
  rewrite queries_app, submissions_app, forallb_app, stamps_app,
    length_app, Hq, Hq', Ha, Ha'.
  split; [reflexivity|]. split; [reflexivity|]. split; [lia|].
  intros path Hpath.
  destruct (Hn path Hpath) as [Hr Hs]. destruct (Hn' path Hpath) as [Hr' Hs'].
  rewrite Hs, Hs', Hr', Hr, readings_app. split; [lia | reflexivity].
Qed.

Lemma advance_weaken a b p p' :
  (a <= b)%nat ->
  Conduct.advance clock env projectPath a p p' ->
  Conduct.advance clock env projectPath b p p'.
Proof.
  intros Hab (Hd & evs & Ht & Hq & Ha & Hl & Hn).
  split; [exact Hd|]. exists evs.
  split; [exact Ht|]. split; [exact Hq|]. split; [exact Ha|].
  split; [lia | exact Hn].
Qed.

(** A step that appended the events seen in the goal was an advance. *)
Ltac moved :=
  split; [cbn [detached]; rewrite ?app_nil_r; reflexivity|];
  cbn [trace clock_reads]; rewrite <- ?app_assoc;
  first [ eexists; split; [reflexivity|]
        | exists []; rewrite app_nil_r; split; [reflexivity|] ];
  (split; [reflexivity|]);
  (split;
   [cbn;
    try match goal with
        | Hp : projectPath (projectId env) = Resolved _ |- _ =>
            rewrite !(addressed_build_request _ _ _ _ Hp) by auto
        end;
    reflexivity|]);
  (split; [cbn; lia|]);
  let HH := fresh in
  intros ? HH;
  first [ match goal with
          | Hp : projectPath (projectId env) = Rejected _ |- _ =>
              rewrite Hp in HH; discriminate HH
          end
        | split; [reflexivity|];
          unfold Conduct.stamps, Conduct.readings, published; cbn;
          rewrite ?lookup_singleton_eq; reflexivity ].

Lemma fire_in_flight p :
  Conduct.in_flight clock env projectPath (fst (fire p)) /\
  Conduct.awaits_counts (fst (fire p)) = 1%nat /\
  trace (snd (fire p)) =
    trace p ++
      [ Log "Cron job execution started: Fetching and publishing metrics...";
        Log "Fetching order counts from AlloyDB...";
        Query (next_call p) query ] /\
  detached (snd (fire p)) = detached p /\
  clock_reads (snd (fire p)) = clock_reads p.
Proof.
  destruct p as [tr n r0 d]. unfold Run.fire, main, publishMetric.
  destruct (projectPath (projectId env)) as [path|epath] eqn:Hpath;
    cbn -[Nat.eqb];
    (split; [|repeat split; rewrite <- !app_assoc; reflexivity]);
    apply Conduct.Awaiting; intros o [tr' n' r' d'];
    destruct o as [[[|r rest]]|e]; cbn -[Nat.eqb];
    (split; [once constructor | moved]).
Qed.

Lemma publishing_awaits t :
  publishing t -> Conduct.awaits_counts t = 0%nat.
Proof. intros []; reflexivity. Qed.

Lemma resume_publishing_still c t p :
  publishing t ->
  publishing (fst (resume clock unit c t p)) /\
  Conduct.advance clock env projectPath 0 p (snd (resume clock unit c t p)).
Proof.
  intros H. destruct H, c as [id o|id o], p as [tr n r0 d];
    cbn -[Nat.eqb]; try (split; [once constructor | moved]).
  - destruct (Nat.eqb a id), (Nat.eqb b id), o as [[]|e]; cbn -[Nat.eqb];
      (split; [once constructor | moved]).
  - destruct (Nat.eqb a id), o as [[]|e]; cbn -[Nat.eqb];
      (split; [once constructor | moved]).
  - destruct (Nat.eqb b id), o as [[]|e]; cbn -[Nat.eqb];
      (split; [once constructor | moved]).
Qed.

Lemma resume_in_flight c t p :
  Conduct.in_flight clock env projectPath t ->
  Conduct.in_flight clock env projectPath (fst (resume clock unit c t p)) /\
  (Conduct.awaits_counts (fst (resume clock unit c t p))
   <= Conduct.awaits_counts t)%nat /\
  Conduct.advance clock env projectPath
    (2 * (Conduct.awaits_counts t
          - Conduct.awaits_counts (fst (resume clock unit c t p))))
    p (snd (resume clock unit c t p)).
Proof.
  intros [n k Hk|t' Ht].
  - destruct c as [id o|id o]; cbn -[Nat.eqb Nat.mul].
    + destruct (Nat.eqb n id).
      * destruct (Hk o p) as [Hp Hq].
        rewrite (publishing_awaits _ Hp).
        split; [apply Conduct.Sending, Hp|]. split; [lia | exact Hq].
      * split; [apply Conduct.Awaiting, Hk|].
        split; [reflexivity | apply advance_refl].
    + split; [apply Conduct.Awaiting, Hk|].
      split; [reflexivity | apply advance_refl].
  - destruct (resume_publishing_still c t' p Ht) as [Hp Hq].
    rewrite (publishing_awaits _ Hp), (publishing_awaits _ Ht).
    split; [apply Conduct.Sending, Hp|]. split; [lia | exact Hq].
Qed.

Lemma resume_each_in_flight c ths : forall p,
  Forall (Conduct.in_flight clock env projectPath) ths ->
  Forall (Conduct.in_flight clock env projectPath)
    (fst (resume_each clock c ths p)) /\
  (Conduct.waiting (fst (resume_each clock c ths p))
   <= Conduct.waiting ths)%nat /\
  Conduct.advance clock env projectPath
    (2 * (Conduct.waiting ths
          - Conduct.waiting (fst (resume_each clock c ths p))))
    p (snd (resume_each clock c ths p)).
Proof.
  induction ths as [|t ths IH]; intros p H; cbn [resume_each].
  - split; [constructor|]. split; [reflexivity | apply advance_refl].
  - inversion H as [|? ? Ht Hs]; subst.
    destruct (resume_in_flight c t p Ht) as (Ht' & Hw & Hq).
    destruct (resume clock unit c t p) as [t' p1]. cbn [fst snd] in *.
    destruct (IH p1 Hs) as (Hs' & Hw' & Hq').
    destruct (resume_each clock c ths p1) as [ths' p2]. cbn [fst snd] in *.
    split; [constructor; assumption|]. cbn [Conduct.waiting].
    split; [lia|].
    eapply advance_weaken; [|eapply advance_trans; eassumption]. lia.
Qed.

Lemma waiting_app ths ths' :
  Conduct.waiting (ths ++ ths') =
  (Conduct.waiting ths + Conduct.waiting ths')%nat.
Proof.
  induction ths as [|t ths IH]; cbn [app Conduct.waiting]; [reflexivity|].
  rewrite IH. lia.
Qed.

Lemma step_orderly fired l i :
  Conduct.orderly clock env projectPath fired l ->
  Conduct.orderly clock env projectPath (ticks [i] + fired)
    (step clock (main env projectPath) l i).
Proof.
  intros (Hs & Hd & Ha & Hb & Hn). destruct i as [|c]; unfold step.
  - destruct (fire_in_flight (proc l)) as (Ht & Hw & Htr & Hd' & Hr').
    change (start clock unit (main env projectPath) (proc l))
      with (fire (proc l)).
    destruct (fire (proc l)) as [t p]. cbn [fst snd] in *.
    rewrite Hd in Hd'.
    rewrite adopt_calm by exact Hd'.
    unfold Conduct.orderly. cbn [threads proc ticks].
    rewrite Htr, submissions_app, stamps_app, waiting_app, Hr'.
    cbn [submissions omap Conduct.stamps published flat_map map
         Conduct.waiting].
    rewrite !app_nil_r, Hw.
    split; [|split; [|split; [|split]]]; try assumption; [|lia].
    apply Forall_app. split; [exact Hs|].
    constructor; [exact Ht | constructor].
  - destruct (resume_each_in_flight c (threads l) (proc l) Hs)
      as (Hs' & Hw & Hd' & evs & Htr & Hq & Ha' & Hl & Hn').
    destruct (resume_each clock c (threads l) (proc l)) as [ths p].
    cbn [fst snd] in *.
    rewrite Hd in Hd'.
    rewrite adopt_calm by exact Hd'.
    unfold Conduct.orderly. cbn [threads proc ticks].
    rewrite Htr, submissions_app, stamps_app, forallb_app, length_app,
      Ha, Ha'.
    split; [exact Hs'|]. split; [exact Hd'|]. split; [reflexivity|].
    split; [lia|].
    intros path Hpath.
    destruct (Hn path Hpath) as [Hr Hst].
    destruct (Hn' path Hpath) as [Hr' Hst'].
    rewrite Hst, Hst', Hr', Hr, readings_app. rewrite Nat.add_0_r.
    split; [lia | reflexivity].
Qed.

(** Whatever happens to the loop, in whatever order, it stays orderly. *)
Lemma schedule_orderly inputs : forall fired l,
  Conduct.orderly clock env projectPath fired l ->
  Conduct.orderly clock env projectPath (ticks inputs + fired)
    (schedule inputs l).
Proof.
  unfold Run.schedule, run.
  induction inputs as [|i inputs IH]; intros fired l H; cbn [fold_left].
  - exact H.
  - apply (step_orderly _ _ i) in H. apply IH in H.
    replace (ticks (i :: inputs) + fired)%nat
      with (ticks inputs + (ticks [i] + fired))%nat; [exact H|].
    destruct i; cbn [ticks]; lia.
Qed.

Lemma orderly_boot : Conduct.orderly clock env projectPath 0 boot.
Proof.
  split; [constructor|]. split; [reflexivity|]. split; [reflexivity|].
  split; [cbn; lia|]. intros path _. split; reflexivity.
Qed.

(** X10.  In every run of the event loop, whatever the timer, the
    database and the backend do and in whatever order, every request
    submitted is named after the project and holds one time series, for
    the backlog or the processed metric type, an INT64 gauge on the
    global resource labelled with the project: nothing else is ever
    written to. *)
Theorem schedule_requests_addressed inputs :
  forallb (Conduct.addressed env projectPath)
    (submissions (trace (proc (schedule inputs boot)))) = true.
Proof.
  destruct (schedule_orderly inputs 0 boot orderly_boot)
    as (_ & _ & Ha & _).
  exact Ha.
Qed.

(** X11.  In every run of the event loop at most two requests are
    submitted per tick of the timer; before the first tick, none. *)
Theorem schedule_two_requests_per_tick inputs :
  (length (submissions (trace (proc (schedule inputs boot))))
   <= 2 * ticks inputs)%nat.
Proof.
  destruct (schedule_orderly inputs 0 boot orderly_boot)
    as (_ & _ & _ & Hb & _).
  lia.
Qed.

(** X12.  When [projectPath] returns a name, in every run of the event
    loop the clock is read once per request, just before the request is
    submitted: the [n]-th request submitted since the start carries the
    [n]-th reading of the clock, also when cycles overlap. *)
Theorem schedule_stamps_in_submission_order path inputs :
  projectPath (projectId env) = Resolved path ->
  clock_reads (proc (schedule inputs boot)) =
    length (submissions (trace (proc (schedule inputs boot)))) /\
  Conduct.stamps (trace (proc (schedule inputs boot))) =
    Conduct.readings clock 0
      (length (submissions (trace (proc (schedule inputs boot))))).
Proof.
  intros Hpath.
  destruct (schedule_orderly inputs 0 boot orderly_boot)
    as (_ & _ & _ & _ & Hn).
  exact (Hn path Hpath).
Qed.

Lemma readings_lookup from count i s :
  Conduct.readings clock from count !! i = Some s ->
  s = Some (Qmake (clock (from + i)) 1000).
Proof.
  unfold Conduct.readings. rewrite list_lookup_fmap.
  destruct (seq from count !! i) as [k|] eqn:E; [|discriminate].
  apply lookup_seq in E as [-> _]. cbn. congruence.
Qed.

(** X13.  On a clock that never goes back, in every run of the event
    loop, overlapping cycles included, the end times of the points are in
    the order in which the points were submitted: a point never carries
    an earlier end time than one submitted before it. *)
Theorem schedule_stamps_never_go_back inputs (i j : nat) si sj :
  (forall a b, (a <= b)%nat -> clock a <= clock b) ->
  (i <= j)%nat ->
  Conduct.stamps (trace (proc (schedule inputs boot))) !! i = Some (Some si) ->
  Conduct.stamps (trace (proc (schedule inputs boot))) !! j = Some (Some sj) ->
  (si <= sj)%Q.
Proof.
  intros Hmono Hij Hi Hj.
  destruct (schedule_orderly inputs 0 boot orderly_boot)
    as (_ & _ & Ha & _ & Hn).
  destruct (projectPath (projectId env)) as [path|e] eqn:Hpath.
  - destruct (Hn path eq_refl) as [_ Hs].
    rewrite Hs in Hi, Hj.
    apply readings_lookup in Hi, Hj.
    injection Hi as ->. injection Hj as ->.
    unfold Qle. cbn [Qnum Qden]. specialize (Hmono i j Hij).
    cbn [Nat.add]. lia.
  - apply (addressed_unnamed _ _ Hpath) in Ha.
    unfold Conduct.stamps, published in Hi. rewrite Ha in Hi.
    discriminate Hi.
Qed.

(** *** Cycles one after the other, and cycles that overlap *)



Lemma resume_each_settled_app c ths more p :
  forallb is_settled ths = true ->
  resume_each clock c (ths ++ more) p =
  (ths ++ fst (resume_each clock c more p),
   snd (resume_each clock c more p)).
Proof.
  revert p. induction ths as [|t ths IH]; intros p H; cbn [app resume_each].
  - destruct (resume_each clock c more p). reflexivity.
  - cbn in H. apply andb_prop in H as [Ht Hs].
    rewrite (resume_settled _ _ _ Ht), (IH _ Hs). reflexivity.
Qed.

Lemma fire_run path p :
  projectPath (projectId env) = Resolved path ->
  exists k,
    fire p =
      (OnQuery (next_call p) k,
       after p
         [ Log "Cron job execution started: Fetching and publishing metrics...";
           Log "Fetching order counts from AlloyDB...";
           Query (next_call p) query ] 1 0) /\
    forall res r rest p',
      rows res = r :: rest ->
      start clock unit (k (Resolved res)) p' =
      (OnAll (OnCreateTimeSeries (next_call p') submitted)
             (OnCreateTimeSeries (S (next_call p')) submitted) finishing,
       after p'
         [ Log ("Current backlog count: "
                +:+ show (backlogCount (counts_of_row r)));
           Log ("Current processed count: "
                +:+ show (processedCount (counts_of_row r)));
           Log ("Publishing metric value "
                +:+ show (backlogCount (counts_of_row r))
                +:+ " to " +:+ customMetricType);
           CreateTimeSeries (next_call p')
             (build_request path (backlogCount (counts_of_row r))
                customMetricType (clock (clock_reads p')));
           Log ("Publishing metric value "
                +:+ show (processedCount (counts_of_row r))
                +:+ " to " +:+ processedMetricType);
           CreateTimeSeries (S (next_call p'))
             (build_request path (processedCount (counts_of_row r))
                processedMetricType (clock (S (clock_reads p')))) ] 2 2).
Proof.
  intros Hpath. destruct p as [tr n r0 d]. named Hpath. cbn -[Nat.eqb].
  eexists. split.
  - unfold after. cbn. rewrite <- !app_assoc. reflexivity.
  - intros [rws] r rest [tr' n' r' d'] H. cbn in H. subst rws.
    cbn -[Nat.eqb]. unfold after. cbn. rewrite <- !app_assoc. reflexivity.
Qed.

Lemma step_tick l t p :
  detached (proc l) = [] ->
  fire (proc l) = (t, p) ->
  detached p = detached (proc l) ->
  step clock (main env projectPath) l Tick =
  {| threads := threads l ++ [t]; proc := p |}.
Proof.
  intros Hd Hf Hd'. unfold step.
  change (start clock unit (main env projectPath) (proc l))
    with (fire (proc l)).
  rewrite Hf. apply adopt_calm. congruence.
Qed.

Lemma step_done l c ths p :
  resume_each clock c (threads l) (proc l) = (ths, p) ->
  detached p = [] ->
  step clock (main env projectPath) l (Done c) =
  {| threads := ths; proc := p |}.
Proof. intros Hr Hd. unfold step. rewrite Hr. apply adopt_calm, Hd. Qed.

(** X15.  The timer does not wait for a cycle to be over.  When it fires
    twice before the database has answered, and the second query is
    answered first, then, [projectPath] returning a name, the counts of
    the second invocation are stamped and submitted before those of the
    first: points go out in the order of the answers, not of the
    ticks. *)
Theorem overlapping_cycles_publish_in_answer_order
  path res1 r1 rest1 res2 r2 rest2 l :
  projectPath (projectId env) = Resolved path ->
  quiescent l = true ->
  rows res1 = r1 :: rest1 ->
  rows res2 = r2 :: rest2 ->
  let n := next_call (proc l) in
  let r := clock_reads (proc l) in
  published (trace (proc (schedule
    [ Tick; Tick;
      Done (QueryDone (1 + n) (Resolved res2));
      Done (QueryDone n (Resolved res1)) ] l))) =
  published (trace (proc l)) ++
    [ (customMetricType, backlogCount (counts_of_row r2),
       Some (Qmake (clock r) 1000));
      (processedMetricType, processedCount (counts_of_row r2),
       Some (Qmake (clock (1 + r)) 1000));
      (customMetricType, backlogCount (counts_of_row r1),
       Some (Qmake (clock (2 + r)) 1000));
      (processedMetricType, processedCount (counts_of_row r1),
       Some (Qmake (clock (3 + r)) 1000)) ].
Proof.
  intros Hpath Hq Hr1 Hr2.
  destruct l as [ths [tr n0 r0 d]]. unfold quiescent in Hq.
  cbn [threads proc detached] in Hq.
  apply andb_prop in Hq as [Hs Hd]. destruct d; [|discriminate].
  cbn [proc next_call clock_reads trace Nat.add].
  unfold Run.schedule, run. cbn [fold_left].
  destruct (fire_run path
              {| trace := tr; next_call := n0; clock_reads := r0;
                 detached := [] |} Hpath) as (k1 & F1 & K1).
  match goal with
  | |- context [step _ _ ?l0 Tick] =>
      rewrite (step_tick l0 _ _ eq_refl F1 eq_refl)
  end.
  cbn [after trace next_call clock_reads detached Nat.add].
  match goal with
  | |- context [step _ _ {| threads := ?ths1; proc := ?p1 |} Tick] =>
      destruct (fire_run path p1 Hpath) as (k2 & F2 & K2);
      rewrite (step_tick {| threads := ths1; proc := p1 |} _ _
                 eq_refl F2 eq_refl)
  end.
  cbn [after trace next_call clock_reads detached Nat.add threads proc] in *.
  rewrite <- !app_assoc. cbn [app].
  match goal with
  | |- context [step _ _ {| threads := ?ths1; proc := ?p1 |} (Done ?c)] =>
      erewrite (step_done {| threads := ths1; proc := p1 |} c)
  end; cycle 1.
  { cbn [threads proc]. rewrite (resume_each_settled_app _ _ _ _ Hs).
    cbn -[Nat.eqb start]. ids.
    rewrite (K2 _ _ _ _ Hr2).
    cbn [after trace next_call clock_reads detached Nat.add fst snd].
    reflexivity. }
  { reflexivity. }
  match goal with
  | |- context [step _ _ {| threads := ?ths1; proc := ?p1 |} (Done ?c)] =>
      erewrite (step_done {| threads := ths1; proc := p1 |} c)
  end; cycle 1.
  { cbn [threads proc]. rewrite (resume_each_settled_app _ _ _ _ Hs).
    cbn -[Nat.eqb start]. ids.
    rewrite (K1 _ _ _ _ Hr1).
    cbn [after trace next_call clock_reads detached Nat.add fst snd].
    reflexivity. }
  { reflexivity. }
  unfold after. cbn [proc trace].
  rewrite <- ?app_assoc, published_app. f_equal.
Qed.

End Facts.

(** *** The configuration *)

(** C8, as amended.  With [DB_HOST] unset or empty the host is
    [127.0.0.1], and with [DB_PORT] unset or empty the port is 5432.  A
    non-empty [DB_HOST] is the host; a non-empty [DB_PORT] is read with
    [parseInt(_, 10)], so the decimal text of an integer [n] gives the
    number nearest to [n]: [n] itself when [n] is at most 2^53 in
    magnitude. *)
Theorem dbConfig_defaults (env : environment) :
  (env !! "DB_HOST" = None -> host (dbConfig env) = "127.0.0.1") /\
  (env !! "DB_PORT" = None -> port (dbConfig env) = Int 5432) /\
  (env !! "DB_HOST" = Some EmptyString ->
   host (dbConfig env) = "127.0.0.1") /\
  (env !! "DB_PORT" = Some EmptyString -> port (dbConfig env) = Int 5432) /\
  (forall h, env !! "DB_HOST" = Some h -> h <> EmptyString ->
             host (dbConfig env) = h) /\
  (forall s, env !! "DB_PORT" = Some s -> s <> EmptyString ->
             port (dbConfig env) = parseInt (Str s)) /\
  (forall n, env !! "DB_PORT" = Some (decimal n) ->
             port (dbConfig env) = of_integer n /\
             (exact n = true -> port (dbConfig env) = Int n)).
Proof.
  unfold dbConfig. cbn [host port].
  repeat split.
  - intros ->. reflexivity.
  - intros ->. reflexivity.
  - intros ->. reflexivity.
  - intros ->. reflexivity.
  - intros h -> Hh. apply or_else_nonempty, Hh.
  - intros s -> Hs. rewrite (or_else_nonempty _ _ Hs). reflexivity.
  - rewrite H, (or_else_nonempty _ _ (decimal_nonempty n)).
    apply parseInt_decimal.
  - intros Hn. rewrite H, (or_else_nonempty _ _ (decimal_nonempty n)).
    unfold parseInt. cbn [to_string].
    rewrite parseInt_decimal. apply of_integer_exact, Hn.
Qed.

(** *** The claims on sample worlds *)

(** A cycle on two pending orders and one processed order, the backend
    refusing the backlog point: both counts are announced and submitted
    once.  The same cycle without a project identifier: both counts are
    announced, and nothing is submitted. *)
Lemma main_publishes_each_count_once_witness :
  fst (Run.fetch Sample.clock (Resolved Sample.two_pending_one_processed)
         (proc boot)) =
    Settled (Resolved {| backlogCount := Int 2; processedCount := Int 1 |}) /\
  announcements (trace (snd
    (Run.cycle Sample.clock Sample.env Sample.projectPath
       (Resolved Sample.two_pending_one_processed)
       (Rejected Sample.quota_exceeded) (Resolved tt) false (proc boot)))) =
    [ "Publishing metric value 2 to custom.googleapis.com/orders/backlog_count";
      "Publishing metric value 1 to custom.googleapis.com/orders/processed_count"
    ] /\
  submissions (trace (snd
    (Run.cycle Sample.clock Sample.env Sample.projectPath
       (Resolved Sample.two_pending_one_processed)
       (Rejected Sample.quota_exceeded) (Resolved tt) false (proc boot)))) =
    [ build_request Sample.env "projects/demo-project" (Int 2)
        customMetricType (Sample.clock 0);
      build_request Sample.env "projects/demo-project" (Int 1)
        processedMetricType (Sample.clock 1) ] /\
  submissions (trace (snd
    (Run.cycle Sample.clock Sample.env_no_project Sample.projectPath
       (Resolved Sample.two_pending_one_processed)
       (Rejected Sample.quota_exceeded) (Resolved tt) false (proc boot)))) =
    [].
Proof.
  assert (fst (Run.fetch Sample.clock
                 (Resolved Sample.two_pending_one_processed) (proc boot)) =
          Settled (Resolved {| backlogCount := Int 2;
                               processedCount := Int 1 |}))
    as H by (vm_compute; reflexivity).
  split; [exact H|].
  destruct (main_publishes_each_count_once Sample.clock Sample.env
              Sample.projectPath (Int 2) (Int 1) _
              (Rejected Sample.quota_exceeded) (Resolved tt) false
              (proc boot) H) as (Ha & Hs & _).
  destruct (main_publishes_each_count_once Sample.clock
              Sample.env_no_project Sample.projectPath (Int 2) (Int 1) _
              (Rejected Sample.quota_exceeded) (Resolved tt) false
              (proc boot) H) as (_ & _ & Hn).
  split; [vm_compute in Ha; vm_compute; exact Ha|].
  split.
  - apply (Hs "projects/demo-project"). vm_compute. reflexivity.
  - apply (Hn Sample.no_project). vm_compute. reflexivity.
Defined.

(** A cycle in which the connection to the database is refused. *)
Lemma main_fetch_failure_publishes_nothing_witness :
  fst (Run.fetch Sample.clock (Rejected Sample.connection_refused)
         (proc boot)) =
    Settled (Rejected Sample.connection_refused) /\
  fst (Run.fetch_phase Sample.clock Sample.env Sample.projectPath
         (Rejected Sample.connection_refused) (proc boot)) =
    Settled (Resolved tt) /\
  submissions (trace (snd
    (Run.fetch_phase Sample.clock Sample.env Sample.projectPath
       (Rejected Sample.connection_refused) (proc boot)))) = [].
Proof.
  assert (fst (Run.fetch Sample.clock (Rejected Sample.connection_refused)
                 (proc boot)) =
          Settled (Rejected Sample.connection_refused)) as H
    by (vm_compute; reflexivity).
  split; [exact H|].
  destruct (main_fetch_failure_publishes_nothing Sample.clock Sample.env
              Sample.projectPath _ _ (Resolved tt) (Resolved tt) true
              (proc boot) H) as (Hmain & _ & _ & Hsub & _).
  split; [exact Hmain | exact Hsub].
Defined.

(** A cycle in which exactly one submission fails, the backlog one; seen
    from the event loop, the invocation it leaves behind is not a
    rejected one.  And a cycle without a project identifier: [main]
    reports what the client library threw, and resolves. *)
Lemma publishMetric_failure_is_contained_witness :
  fst (Run.fetch Sample.clock (Resolved Sample.two_pending_one_processed)
         (proc boot)) =
    Settled (Resolved {| backlogCount := Int 2; processedCount := Int 1 |}) /\
  fst (Run.publish Sample.clock Sample.env Sample.projectPath (Int 2)
         customMetricType (Rejected Sample.quota_exceeded) (proc boot)) =
    Settled (Resolved tt) /\
  fst (Run.cycle Sample.clock Sample.env Sample.projectPath
         (Resolved Sample.two_pending_one_processed)
         (Rejected Sample.quota_exceeded) (Resolved tt) true (proc boot)) =
    Settled (Resolved tt) /\
  errors (trace (snd
    (Run.cycle Sample.clock Sample.env Sample.projectPath
       (Resolved Sample.two_pending_one_processed)
       (Rejected Sample.quota_exceeded) (Resolved tt) true (proc boot)))) =
    [ ("Error publishing metric:", Sample.quota_exceeded) ] /\
  fst (Run.cycle Sample.clock Sample.env_no_project Sample.projectPath
         (Resolved Sample.two_pending_one_processed)
         (Resolved tt) (Resolved tt) true (proc boot)) =
    Settled (Resolved tt) /\
  errors (trace (snd
    (Run.cycle Sample.clock Sample.env_no_project Sample.projectPath
       (Resolved Sample.two_pending_one_processed)
       (Resolved tt) (Resolved tt) true (proc boot)))) =
    [ ("Error during cron job execution:", Sample.no_project) ] /\
  threads
    (Run.schedule Sample.clock Sample.env Sample.projectPath
       (cycle_inputs 0 (Resolved Sample.two_pending_one_processed)
          (Rejected Sample.quota_exceeded) (Resolved tt) true) boot) =
    [ Settled (Resolved tt) ] /\
  Settled (Resolved tt) <> Settled (Rejected Sample.quota_exceeded).
Proof.
  assert (fst (Run.fetch Sample.clock
                 (Resolved Sample.two_pending_one_processed) (proc boot)) =
          Settled (Resolved {| backlogCount := Int 2;
                               processedCount := Int 1 |}))
    as H by (vm_compute; reflexivity).
  split; [exact H|].
  destruct (publishMetric_failure_is_contained Sample.clock Sample.env
              Sample.projectPath (Int 2) customMetricType
              (Rejected Sample.quota_exceeded) _ _
              (Rejected Sample.quota_exceeded) (Resolved tt) true
              (proc boot) H)
    as (Hnamed & _ & Hrun).
  destruct (Hnamed "projects/demo-project")
    as ((Hpub & _) & _ & (Hmain & _ & _ & Herr));
    [vm_compute; reflexivity|].
  destruct (publishMetric_failure_is_contained Sample.clock
              Sample.env_no_project Sample.projectPath (Int 2)
              customMetricType (Resolved tt) _ _
              (Resolved tt) (Resolved tt) true (proc boot) H)
    as (_ & Hunnamed & _).
  destruct (Hunnamed Sample.no_project)
    as (_ & (Hmain' & _ & _ & Herr'));
    [vm_compute; reflexivity|].
  split; [exact Hpub|]. split; [exact Hmain|]. split; [exact Herr|].
  split; [exact Hmain'|]. split; [exact Herr'|].
  split; [vm_compute; reflexivity|].
  apply (Hrun (cycle_inputs 0 (Resolved Sample.two_pending_one_processed)
                 (Rejected Sample.quota_exceeded) (Resolved tt) true)).
  vm_compute. left. reflexivity.
Defined.

(** A row without a backlog column and with a [null] processed column;
    and a row whose backlog column reads [12abc]. *)
Lemma getOrderCounts_blank_fields_are_zero_witness :
  (exists counts,
     fst (Run.fetch Sample.clock (Resolved Sample.missing_and_null)
            (proc boot)) = Settled (Resolved counts) /\
     backlogCount counts = Int 0 /\ processedCount counts = Int 0) /\
  (exists counts,
     fst (Run.fetch Sample.clock (Resolved Sample.digits_then_letters)
            (proc boot)) = Settled (Resolved counts) /\
     backlogCount counts = Int 12 /\ processedCount counts = Int 1).
Proof.
  split.
  - destruct (getOrderCounts_blank_fields_are_zero Sample.clock
                Sample.missing_and_null _ _ (proc boot) eq_refl)
      as (counts & H & Hb & Hp & _).
    exists counts. split; [exact H|].
    split; [apply Hb | apply Hp]; vm_compute; reflexivity.
  - destruct (getOrderCounts_blank_fields_are_zero Sample.clock
                Sample.digits_then_letters _ _ (proc boot) eq_refl)
      as (counts & H & _ & _ & Hb & Hp).
    exists counts. split; [exact H|]. split.
    + apply (Hb 12 "abc"); vm_compute; reflexivity.
    + apply (Hp 1 EmptyString); vm_compute; reflexivity.
Defined.

(** The counts of the sample result come from its one row. *)
Lemma getOrderCounts_single_query_witness :
  exists res r rest,
    Resolved Sample.two_pending_one_processed = Resolved res /\
    rows res = r :: rest /\
    Int 2 = or_zero (parseInt (default Undefined (r !! "backlog_count"))) /\
    Int 1 = or_zero (parseInt (default Undefined (r !! "processed_count"))).
Proof.
  destruct (getOrderCounts_single_query Sample.clock Sample.env
              Sample.projectPath (Resolved Sample.two_pending_one_processed)
              (Resolved tt) (Resolved tt) true (proc boot))
    as (_ & _ & _ & H & _).
  apply (H {| backlogCount := Int 2; processedCount := Int 1 |}).
  vm_compute. reflexivity.
Defined.

(** One call without a project identifier submits nothing; one call with
    it submits one request under the name of the project. *)
Lemma publishMetric_submits_one_point_witness :
  submissions (trace (snd
    (Run.publish Sample.clock Sample.env_no_project Sample.projectPath
       (Int 2) customMetricType (Resolved tt) (proc boot)))) = [] /\
  exists req ts pt,
    submissions (trace (snd
      (Run.publish Sample.clock Sample.env Sample.projectPath
         (Int 2) customMetricType (Resolved tt) (proc boot)))) = [req] /\
    name req = "projects/demo-project" /\
    timeSeries req = [ts] /\ points ts = [pt] /\
    project_id (labels (resource ts)) = Some "demo-project" /\
    int64Value (value pt) = Int 2.
Proof.
  destruct (publishMetric_submits_one_point Sample.clock
              Sample.env_no_project Sample.projectPath (Int 2)
              customMetricType (Resolved tt)
              (Resolved Sample.two_pending_one_processed)
              (Resolved tt) (Resolved tt) true (proc boot))
    as (_ & Hn & _).
  destruct (publishMetric_submits_one_point Sample.clock
              Sample.env Sample.projectPath (Int 2)
              customMetricType (Resolved tt)
              (Resolved Sample.two_pending_one_processed)
              (Resolved tt) (Resolved tt) true (proc boot))
    as (Hs & _).
  split.
  - apply (Hn Sample.no_project). vm_compute. reflexivity.
  - destruct (Hs "projects/demo-project")
      as (req & ts & pt & H1 & H2 & H3 & H4 & _ & _ & _ & _ & H5 & H6);
      [vm_compute; reflexivity|].
    exists req, ts, pt.
    split; [exact H1|]. split; [exact H2|]. split; [exact H3|].
    split; [exact H4|]. split; [|exact H6].
    rewrite H5. vm_compute. reflexivity.
Defined.


(** No rows, and one row. *)
Lemma getOrderCounts_empty_result_rejects_witness :
  fst (Run.fetch Sample.clock (Resolved Sample.no_rows) (proc boot)) =
    Settled (Rejected (TypeError
      "Cannot read properties of undefined (reading 'backlog_count')")) /\
  exists counts,
    fst (Run.fetch Sample.clock (Resolved Sample.two_pending_one_processed)
           (proc boot)) = Settled (Resolved counts).
Proof.
  split.
  - destruct (getOrderCounts_empty_result_rejects Sample.clock
                Sample.no_rows (proc boot)) as [H _].
    apply H. reflexivity.
  - destruct (getOrderCounts_empty_result_rejects Sample.clock
                Sample.two_pending_one_processed (proc boot)) as [_ H].
    eapply H. reflexivity.
Defined.

(** The defaults in an empty environment, and the sample environment. *)
Lemma dbConfig_defaults_witness :
  host (dbConfig ∅) = "127.0.0.1" /\ port (dbConfig ∅) = Int 5432 /\
  host (dbConfig Sample.env_empty_host) = "127.0.0.1" /\
  host (dbConfig Sample.env) = "10.0.0.5" /\
  port (dbConfig Sample.env) = Int 5433.
Proof.
  destruct (dbConfig_defaults ∅) as (Hh & Hp & _).
  destruct (dbConfig_defaults Sample.env_empty_host) as (_ & _ & He & _).
  destruct (dbConfig_defaults Sample.env) as (_ & _ & _ & _ & Hs & _ & Hn).
  split; [apply Hh; reflexivity|].
  split; [apply Hp; reflexivity|].
  split; [apply He; vm_compute; reflexivity|].
  split; [apply Hs; [vm_compute; reflexivity | discriminate]|].
  apply (Hn 5433); vm_compute; reflexivity.
Defined.

(** *** Where the claims as written fail *)

(** C3 as written.  No project identifier is set: the client library
    throws before the [try], and [publishMetric] rejects with what it
    threw, whatever the backend would have answered. *)
Lemma publishMetric_rejects_without_project :
  projectId Sample.env_no_project = None /\
  fst (Run.publish Sample.clock Sample.env_no_project Sample.projectPath
         (Int 2) customMetricType (Resolved tt) (proc boot)) =
    Settled (Rejected Sample.no_project) /\
  fst (Run.publish Sample.clock Sample.env_no_project Sample.projectPath
         (Int 2) customMetricType (Resolved tt) (proc boot)) <>
    Settled (Resolved tt).
Proof.
  split; [vm_compute; reflexivity|].
  split; [vm_compute; reflexivity|].
  vm_compute. discriminate.
Qed.

(** C4 as written.  A backlog column holding [12abc] is not numeric, yet
    the count read from it is 12, not zero: [parseInt] stops at the first
    character that is not a digit. *)
Lemma getOrderCounts_reads_digit_prefix :
  exists r counts,
    rows Sample.digits_then_letters = [r] /\
    r !! "backlog_count" = Some (Str "12abc") /\
    numeric (Str "12abc") = false /\
    fst (Run.fetch Sample.clock (Resolved Sample.digits_then_letters)
           (proc boot)) = Settled (Resolved counts) /\
    backlogCount counts = Int 12 /\
    backlogCount counts <> Int 0.
Proof.
  eexists _, {| backlogCount := Int 12; processedCount := Int 1 |}.
  split; [reflexivity|].
  split; [vm_compute; reflexivity|].
  split; [reflexivity|].
  split; [vm_compute; reflexivity|].
  split; [reflexivity | discriminate].
Qed.

(** C5 as written.  The point built at clock reading 1700000000000 has
    that time as its end time, but no start time at all. *)
Lemma publishMetric_interval_has_no_start_time :
  exists req ts pt,
    submissions (trace (snd
      (Run.publish (fun _ => 1700000000000) Sample.env Sample.projectPath
         (Int 2) customMetricType (Resolved tt) (proc boot)))) = [req] /\
    timeSeries req = [ts] /\ points ts = [pt] /\
    interval pt !! "endTime" =
      Some {| seconds := Qmake 1700000000000 1000 |} /\
    interval pt !! "startTime" <>
      Some {| seconds := Qmake 1700000000000 1000 |}.
Proof.
  eexists _, _, _.
  split; [vm_compute; reflexivity|].
  split; [reflexivity|]. split; [reflexivity|].
  split; [vm_compute; reflexivity|].
  vm_compute. discriminate.
Qed.

(** C7 as written.  No project identifier is set: this invocation of
    [publishMetric] submits no time series at all. *)
Lemma publishMetric_submits_nothing_without_project :
  projectId Sample.env_no_project = None /\
  submissions (trace (snd
    (Run.publish Sample.clock Sample.env_no_project Sample.projectPath
       (Int 2) customMetricType (Resolved tt) (proc boot)))) = [].
Proof. split; vm_compute; reflexivity. Qed.

(** C8 as written.  [DB_HOST] is set, to the empty string, and the host
    used is the default, not the value supplied. *)
Lemma dbConfig_empty_host_falls_back :
  Sample.env_empty_host !! "DB_HOST" = Some EmptyString /\
  host (dbConfig Sample.env_empty_host) = "127.0.0.1" /\
  host (dbConfig Sample.env_empty_host) <> EmptyString.
Proof.
  split; [vm_compute; reflexivity|].
  split; [vm_compute; reflexivity|].
  vm_compute. discriminate.
Qed.


(** Cycles may also overlap: the timer fires again while the first query
    is still pending, and the second query is answered first.  Even on a
    clock that only advances, the points of the second cycle (3 and 0) are
    then built, stamped and submitted before those of the first (2 and
    1). *)
Example overlapping_cycles_publish_out_of_order :
  published (trace (proc
    (Run.schedule Sample.clock Sample.env Sample.projectPath
       [ Tick; Tick;
         Done (QueryDone 1 (Resolved
           {| rows := [ {[ "backlog_count" := Str "3";
                           "processed_count" := Str "0" ]} ] |}));
         Done (QueryDone 0 (Resolved Sample.two_pending_one_processed));
         Done (CreateTimeSeriesDone 2 (Resolved tt));
         Done (CreateTimeSeriesDone 3 (Resolved tt));
         Done (CreateTimeSeriesDone 4 (Resolved tt));
         Done (CreateTimeSeriesDone 5 (Resolved tt)) ] boot))) =
  [ (customMetricType, Int 3, Some (Qmake 1700000000000 1000));
    (processedMetricType, Int 0, Some (Qmake 1700000060000 1000));
    (customMetricType, Int 2, Some (Qmake 1700000120000 1000));
    (processedMetricType, Int 1, Some (Qmake 1700000180000 1000)) ].
Proof. vm_compute. reflexivity. Qed.

(** parseInt returns a number, which is rounded beyond 2^53, and a number
    from 10^21 on is written with an exponent, of which parseInt reads
    the first digit only. *)
Example parseInt_rounds_beyond_exact_integers :
  parseInt (Str "9007199254740993") = Int 9007199254740992 /\
  show (Int 1152921504606846977) = "1152921504606847000" /\
  parseInt (Number 1000000000000000000000) = Int 1.
Proof. vm_compute. repeat split. Qed.

(** *** The further properties on sample worlds *)

(** The orders of the README: two pending, one processed. *)
Lemma getOrderCounts_counts_orders_witness :
  fst (Run.fetch Sample.clock
         (Resolved (Database.select_counts Database.AsText
            Scenario.readme_orders)) (proc boot)) =
  Settled (Resolved {| backlogCount := Int 2; processedCount := Int 1 |}).
Proof.
  apply (getOrderCounts_counts_orders Sample.clock Database.AsText
           Scenario.readme_orders (proc boot)).
  vm_compute. reflexivity.
Defined.

(** A cycle on the orders of the README, the driver handing numbers
    over. *)
Lemma main_publishes_order_counts_witness :
  published (trace (snd
    (Run.cycle Sample.clock Sample.env Sample.projectPath
       (Resolved (Database.select_counts Database.AsNumber
          Scenario.readme_orders))
       (Resolved tt) (Resolved tt) true (proc boot)))) =
  [ (customMetricType, Int 2, Some (Qmake 1700000000000 1000));
    (processedMetricType, Int 1, Some (Qmake 1700000060000 1000)) ].
Proof.
  apply (main_publishes_order_counts Sample.clock Sample.env
           Sample.projectPath "projects/demo-project" Database.AsNumber
           Scenario.readme_orders (Resolved tt) (Resolved tt) true
           (proc boot)); vm_compute; reflexivity.
Defined.

(** The orders of the README with two more, one without a status and one
    whose status is in lower case: the order without a status changes
    neither count. *)
Lemma getOrderCounts_skips_other_statuses_witness :
  fst (Run.fetch Sample.clock
         (Resolved (Database.select_counts Database.AsText
            (Scenario.readme_orders
               ++ Scenario.unlabelled :: [Scenario.lower_case])))
         (proc boot)) =
  fst (Run.fetch Sample.clock
         (Resolved (Database.select_counts Database.AsText
            (Scenario.readme_orders ++ [Scenario.lower_case])))
         (proc boot)).
Proof.
  apply (getOrderCounts_skips_other_statuses Sample.clock Database.AsText
           Scenario.unlabelled Scenario.readme_orders
           [Scenario.lower_case] (proc boot)); cbn; discriminate.
Defined.

(** The orders of the README with one in lower case: four orders, three
    of them counted. *)
Lemma getOrderCounts_counts_within_table_witness :
  exists b pc : Z,
    fst (Run.fetch Sample.clock
           (Resolved (Database.select_counts Database.AsText
              (Scenario.readme_orders ++ [Scenario.lower_case])))
           (proc boot)) =
      Settled (Resolved {| backlogCount := Int b;
                           processedCount := Int pc |}) /\
    0 <= b /\ 0 <= pc /\ b + pc <= 4.
Proof.
  apply (getOrderCounts_counts_within_table Sample.clock Database.AsText
           (Scenario.readme_orders ++ [Scenario.lower_case]) (proc boot)).
  vm_compute. reflexivity.
Defined.

(** Both submissions fail, and the cycle still ends on the success line;
    without a project identifier it ends on the error of the client
    library. *)
Lemma main_reports_success_whatever_the_backend_answers_witness :
  List.last (trace (snd
    (Run.cycle Sample.clock Sample.env Sample.projectPath
       (Resolved Sample.two_pending_one_processed)
       (Rejected Sample.quota_exceeded) (Rejected Sample.quota_exceeded)
       true (proc boot)))) (Log EmptyString) =
  Log "Cron job execution finished successfully." /\
  List.last (trace (snd
    (Run.cycle Sample.clock Sample.env_no_project Sample.projectPath
       (Resolved Sample.two_pending_one_processed)
       (Resolved tt) (Resolved tt) true (proc boot)))) (Log EmptyString) =
  LogError "Error during cron job execution:" Sample.no_project.
Proof.
  assert (fst (Run.fetch Sample.clock
                 (Resolved Sample.two_pending_one_processed) (proc boot)) =
          Settled (Resolved {| backlogCount := Int 2;
                               processedCount := Int 1 |}))
    as H by (vm_compute; reflexivity).
  split.
  - apply (proj1 (main_reports_success_whatever_the_backend_answers
                    Sample.clock Sample.env Sample.projectPath _ _
                    (Rejected Sample.quota_exceeded)
                    (Rejected Sample.quota_exceeded) true (proc boot) H)
             "projects/demo-project").
    vm_compute. reflexivity.
  - apply (proj2 (main_reports_success_whatever_the_backend_answers
                    Sample.clock Sample.env_no_project Sample.projectPath
                    _ _ (Resolved tt) (Resolved tt) true (proc boot) H)
             Sample.no_project).
    vm_compute. reflexivity.
Defined.

(** The backlog submission has failed, the processed one is not answered
    yet: [main] is pending. *)
Lemma main_waits_for_both_submissions_witness :
  is_settled (fst (Run.deliver Sample.clock
    [ QueryDone 0 (Resolved Sample.two_pending_one_processed);
      CreateTimeSeriesDone 1 (Rejected Sample.quota_exceeded) ]
    (Run.fire Sample.clock Sample.env Sample.projectPath (proc boot)))) =
  false.
Proof.
  destruct (main_waits_for_both_submissions Sample.clock Sample.env
              Sample.projectPath "projects/demo-project"
              (Resolved Sample.two_pending_one_processed)
              {| backlogCount := Int 2; processedCount := Int 1 |}
              (Rejected Sample.quota_exceeded) (Resolved tt) (proc boot))
    as [[H _] _].
  - vm_compute. reflexivity.
  - vm_compute. reflexivity.
  - exact H.
Defined.

(** The sample clock reads whole seconds: the first point is stamped
    1700000000. *)
Lemma publishMetric_seconds_whole_iff_witness :
  exists s,
    published (trace (snd
      (Run.publish Sample.clock Sample.env Sample.projectPath (Int 2)
         customMetricType (Resolved tt) (proc boot)))) =
      [(customMetricType, Int 2, Some s)] /\
    (s == inject_Z 1700000000)%Q.
Proof.
  destruct (publishMetric_seconds_whole_iff Sample.clock Sample.env
              Sample.projectPath "projects/demo-project" (Int 2)
              customMetricType (Resolved tt) (proc boot))
    as (s & Hs & Hk).
  - vm_compute. reflexivity.
  - exists s. split; [exact Hs|].
    apply (proj2 (Hk 1700000000)). vm_compute. reflexivity.
Defined.

(** A port that reads [default]. *)
Lemma dbConfig_port_nan_iff_witness :
  port (dbConfig Scenario.env_port_word) = NaN.
Proof.
  apply (proj2 (dbConfig_port_nan_iff Scenario.env_port_word)).
  exists "default".
  split; [vm_compute; reflexivity|].
  split; [discriminate | vm_compute; reflexivity].
Defined.

(** Overlapping cycles: four requests, the clock read four times. *)
Lemma schedule_stamps_in_submission_order_witness :
  clock_reads (proc
    (Run.schedule Sample.clock Sample.env Sample.projectPath
       Scenario.overlapping boot)) = 4%nat /\
  Conduct.stamps (trace (proc
    (Run.schedule Sample.clock Sample.env Sample.projectPath
       Scenario.overlapping boot))) =
    Conduct.readings Sample.clock 0 4.
Proof.
  destruct (schedule_stamps_in_submission_order Sample.clock Sample.env
              Sample.projectPath "projects/demo-project"
              Scenario.overlapping) as [Hr Hs].
  - vm_compute. reflexivity.
  - assert (length (submissions (trace (proc
              (Run.schedule Sample.clock Sample.env Sample.projectPath
                 Scenario.overlapping boot)))) = 4%nat) as Hl
      by (vm_compute; reflexivity).
    rewrite Hl in Hr, Hs. split; [exact Hr | exact Hs].
Defined.

(** Overlapping cycles on a clock that advances by a minute per reading:
    the first and the third point submitted. *)
Lemma schedule_stamps_never_go_back_witness :
  Conduct.stamps (trace (proc
    (Run.schedule Sample.clock Sample.env Sample.projectPath
       Scenario.overlapping boot))) !! 0%nat =
    Some (Some (Qmake 1700000000000 1000)) /\
  Conduct.stamps (trace (proc
    (Run.schedule Sample.clock Sample.env Sample.projectPath
       Scenario.overlapping boot))) !! 2%nat =
    Some (Some (Qmake 1700000120000 1000)) /\
  (Qmake 1700000000000 1000 <= Qmake 1700000120000 1000)%Q.
Proof.
  assert (Conduct.stamps (trace (proc
            (Run.schedule Sample.clock Sample.env Sample.projectPath
               Scenario.overlapping boot))) !! 0%nat =
          Some (Some (Qmake 1700000000000 1000))) as H0
    by (vm_compute; reflexivity).
  assert (Conduct.stamps (trace (proc
            (Run.schedule Sample.clock Sample.env Sample.projectPath
               Scenario.overlapping boot))) !! 2%nat =
          Some (Some (Qmake 1700000120000 1000))) as H2
    by (vm_compute; reflexivity).
  split; [exact H0|]. split; [exact H2|].
  apply (schedule_stamps_never_go_back Sample.clock Sample.env
           Sample.projectPath Scenario.overlapping 0 2 _ _);
    [ intros a b Hab; unfold Sample.clock; lia | lia | exact H0 | exact H2 ].
Defined.


(** The second query is answered first: three and zero go out before two
    and one. *)
Lemma overlapping_cycles_publish_in_answer_order_witness :
  published (trace (proc
    (Run.schedule Sample.clock Sample.env Sample.projectPath
       Scenario.overlapping boot))) =
  [ (customMetricType, Int 3, Some (Qmake 1700000000000 1000));
    (processedMetricType, Int 0, Some (Qmake 1700000060000 1000));
    (customMetricType, Int 2, Some (Qmake 1700000120000 1000));
    (processedMetricType, Int 1, Some (Qmake 1700000180000 1000)) ].
Proof.
  assert (Sample.projectPath (projectId Sample.env) =
          Resolved "projects/demo-project") as Hpath
    by (vm_compute; reflexivity).
  pose proof (overlapping_cycles_publish_in_answer_order Sample.clock
                Sample.env Sample.projectPath "projects/demo-project"
                Sample.two_pending_one_processed _ _
                Scenario.three_pending_none_processed _ _
                boot Hpath eq_refl eq_refl eq_refl) as H.
  vm_compute in H. vm_compute. exact H.
Defined.
